(** * swift.llm.utils: configuration resolution and context-window utilities

    A shallow embedding of the argument resolvers of
    [swift/llm/utils/argument.py] and of the history truncation and label
    rendering helpers of [swift/llm/utils/utils.py], together with the
    properties their specification states about them.

    Python objects are modelled dynamically: an attribute or a JSON field
    holds a [PyVal], an instance is its class together with its attribute
    dictionary, and every operation that Python may refuse returns a
    [Result] carrying the exception raised. *)

From Stdlib Require Import ZArith Lia Bool DecimalString.
From stdpp Require Import base option list strings gmap fin_maps.

Local Open Scope Z_scope.
Set Warnings "-register-all".

(** ** Python values *)

(** The three tensor precisions the resolvers accept
    ([torch.float16], [torch.bfloat16], [torch.float32]). *)
Inductive Dtype := float16 | bfloat16 | float32.

(** A Python value as it can sit in an argument field or in a persisted
    snapshot: scalars, strings, lists and tuples of values, and resolved
    tensor precisions.  A float is kept by its [repr]. *)
Inductive PyVal :=
| VNone
| VBool (b : bool)
| VInt (n : Z)
| VFloat (repr : string)
| VStr (s : string)
| VList (l : list PyVal)
| VTuple (l : list PyVal)
| VDtype (d : Dtype).

(** An f-string kept as its pieces: literal text and interpolated values. *)
Inductive fpiece := Lit (s : string) | Fmt (v : PyVal).
Definition fstring := list fpiece.

(** The exceptions the modelled code can raise.  [OutOfFuel] is not a
    Python exception: it marks a loop of the model that ran out of
    iterations, and is shown never to occur. *)
Inductive exn :=
| AssertionError (msg : fstring)
| ValueError (msg : fstring)
| FileNotFoundError (msg : fstring)
| KeyError (key : PyVal)
| AttributeError (name : string)
| TypeError
| IndexError
| UnboundLocalError (var : string)
| PackageError (requirement : string)
| OSError (path : string)
| OutOfFuel.

Inductive Result (A : Type) :=
| Ok (a : A)
| Err (e : exn).
Arguments Ok {A} a.
Arguments Err {A} e.

#[global] Instance Result_ret : MRet Result := fun A a => Ok a.
#[global] Instance Result_bind : MBind Result := fun A B f m =>
  match m with
  | Ok a => f a
  | Err e => Err e
  end.

Definition is_ok {A} (r : Result A) : bool :=
  match r with Ok _ => true | Err _ => false end.

(** ** Sequences: [len], indexing and slicing *)

Definition len {A} (l : list A) : Z := Z.of_nat (length l).

(** A slice bound as CPython adjusts it: a negative bound counts from the
    end, and the result is clipped to [0, n]. *)
Definition adjust_index (n i : Z) : Z :=
  if i <? 0 then Z.max 0 (i + n) else Z.min i n.

(** [l[start:stop]] with either bound possibly omitted. *)
Definition py_slice {A} (l : list A) (start stop : option Z) : list A :=
  let n := len l in
  let a := match start with Some i => adjust_index n i | None => 0 end in
  let b := match stop with Some j => adjust_index n j | None => n end in
  take (Z.to_nat (b - a)) (drop (Z.to_nat a) l).

(** [l[i]]: a negative index counts from the end, out of range raises. *)
Definition py_index {A} (l : list A) (i : Z) : Result A :=
  let j := if i <? 0 then i + len l else i in
  if (j <? 0) || (len l <=? j) then Err IndexError
  else match l !! Z.to_nat j with
       | Some x => Ok x
       | None => Err IndexError
       end.

(** [str(n)] for an integer. *)
Definition py_str_int (n : Z) : string := NilZero.string_of_int (Z.to_int n).

(** ** [upper_bound] and [limit_history_length] *)

(** Modelled from the spec: [swift.utils.upper_bound], which
    [limit_history_length] imports from a module that is not among the
    sources embedded here.  The specification describes it as a result-returning
    binary search over [[lo, hi]] for the greatest value satisfying a
    monotone predicate, evaluating the predicate O(log n) times and
    returning [lo] when nothing above it is feasible.  The loop probes
    the upper midpoint, keeps it as the new lower end when the predicate
    holds and moves the upper end below it otherwise.  [fuel] bounds the
    iterations of the [while]. *)
Fixpoint upper_bound_loop (fuel : nat) (lo hi : Z) (cond : Z -> Result bool)
  : Result Z :=
  if hi >? lo then
    match fuel with
    | O => Err OutOfFuel
    | S fuel' =>
        let mid := Z.shiftr (lo + hi + 1) 1 in
        b ← cond mid;
        if b : bool then upper_bound_loop fuel' mid hi cond
        else upper_bound_loop fuel' lo (mid - 1) cond
    end
  else Ok lo.

Definition upper_bound (lo hi : Z) (cond : Z -> Result bool) : Result Z :=
  upper_bound_loop (Z.to_nat (hi - lo)) lo hi cond.

(** A conversation turn is a (query, response) pair. *)
Definition History := list (string * string).

(** The example handed to the template: [{'query': ..., 'history': ...}]. *)
Record Example := { ex_query : string; ex_history : History }.

(** The template is an external collaborator; all that is used of it is
    the token ids [template.encode(example)['input_ids']]. *)
Record Template := { encode_input_ids : Example -> list Z }.

Section LimitHistory.
Variable template : Template.
Variable query : string.

(** The inner function of [limit_history_length], closed over the
    history list: the number of tokens of the query with the last
    [history_length] turns. *)
Definition compute_token_length (history : History) (history_length : Z)
  : Result Z :=
  if history_length =? 0 then Err (AssertionError [])
  else
    let example :=
      {| ex_query := query;
         ex_history := py_slice history (Some (- history_length)) None |} in
    let input_ids := encode_input_ids template example in
    Ok (len input_ids).

(** [limit_history_length]: the history is cut where [upper_bound] says,
    into the turns that are dropped and the turns that are kept. *)
Definition limit_history_length (history : option History) (max_length : Z)
  : Result (History * History) :=
  let history := match history with None => [] | Some h => h end in
  history_length ←
    upper_bound 0 (len history)
      (fun mid => n ← compute_token_length history mid;
                  mret (n <=? max_length));
  let old_history := py_slice history None (Some (len history - history_length)) in
  let history' := py_slice history (Some (len history - history_length)) None in
  mret (old_history, history').

(** The number of tokens of the query together with an explicit
    history, as the model sees it at generation time. *)
Definition token_length (history : History) : Z :=
  len (encode_input_ids template {| ex_query := query; ex_history := history |}).

(** The last [k] turns of a history. *)
Definition suffix (k : Z) (history : History) : History :=
  drop (Z.to_nat (len history - k)) history.

(** Encoded length does not decrease when more history is included.
    Only non-empty suffixes are compared: the search never encodes the
    empty one. *)
Definition encoding_monotone (history : History) : Prop :=
  forall i j, 1 <= i -> i <= j -> j <= len history ->
    token_length (suffix i history) <= token_length (suffix j history).
End LimitHistory.

(** ** [_get_labels_str] *)

(** The tokenizer is external; [decode] is [tokenizer.decode]. *)
Record Tokenizer := { decode : list Z -> string }.

(** A [for] loop whose body may raise. *)
Fixpoint for_each {A S : Type} (xs : list A) (body : A -> S -> Result S) (st : S)
  : Result S :=
  match xs with
  | [] => Ok st
  | x :: xs' => st' ← body x st; for_each xs' body st'
  end.

(** A list built by appending the result of a call that may raise, item
    by item. *)
Definition map_result {A B : Type} (f : A -> Result B) : list A -> Result (list B) :=
  fix each (xs : list A) : Result (list B) :=
    match xs with
    | [] => mret []
    | x :: xs' => r ← f x; rs ← each xs'; mret (r :: rs)
    end.

(** [range(n)]. *)
Definition py_range (n : Z) : list Z := seqZ 0 n.

(** Short-circuit [and] and [or] over conditions that may raise. *)
Definition py_and (a b : Result bool) : Result bool :=
  x ← a; if x : bool then b else mret false.
Definition py_or (a b : Result bool) : Result bool :=
  x ← a; if x : bool then mret true else b.

(** The local variables of [_get_labels_str]; [s] and [e] are unbound
    until first assigned. *)
Record LabelsLocals := {
  var_s : option Z;
  var_e : option Z;
  labels_str : string
}.

Definition read_local (name : string) (v : option Z) : Result Z :=
  match v with
  | Some z => Ok z
  | None => Err (UnboundLocalError name)
  end.

Definition marker (n : Z) : string := "[-100 * " +:+ py_str_int n +:+ "]".

Section LabelsStr.
Variable tokenizer : Tokenizer.

(** One iteration of the loop over [range(len(labels))]. *)
Definition _get_labels_str_body (labels : list Z) (i : Z) (st : LabelsLocals)
  : Result LabelsLocals :=
  if i =? 0 then
    x ← py_index labels i;
    if x =? -100
    then mret {| var_s := Some 0; var_e := var_e st; labels_str := labels_str st |}
    else mret {| var_s := var_s st; var_e := Some 0; labels_str := labels_str st |}
  else
    c1 ← py_and (x ← py_index labels i; mret (x =? -100))
                (y ← py_index labels (i - 1); mret (negb (y =? -100)));
    st1 ← (if c1 : bool then
             let s := i in
             e ← read_local "e" (var_e st);
             mret {| var_s := Some s; var_e := var_e st;
                     labels_str := labels_str st
                                   +:+ decode tokenizer (py_slice labels (Some e) (Some s)) |}
           else mret st);
    c2 ← py_and (x ← py_index labels i; mret (negb (x =? -100)))
                (y ← py_index labels (i - 1); mret (y =? -100));
    if c2 : bool then
      let e := i in
      s ← read_local "s" (var_s st1);
      mret {| var_s := var_s st1; var_e := Some e;
              labels_str := labels_str st1 +:+ marker (e - s) |}
    else mret st1.

(** [_get_labels_str]: the loop, then the run that is still open at the
    end of the sequence. *)
Definition _get_labels_str (labels : list Z) : Result string :=
  if len labels =? 0 then mret ""
  else
    st ← for_each (py_range (len labels)) (_get_labels_str_body labels)
           {| var_s := None; var_e := None; labels_str := "" |};
    last ← py_index labels (-1);
    if last =? -100 then
      s ← read_local "s" (var_s st);
      mret (labels_str st +:+ marker (len labels - s))
    else
      e ← read_local "e" (var_e st);
      mret (labels_str st +:+ decode tokenizer (py_slice labels (Some e) None)).

(** The rendering as the specification words it: the label sequence is
    cut into its maximal runs of masked and of non-masked ids, and each
    run is rendered on its own, in order. *)
Definition masked (x : Z) : bool := x =? -100.

Fixpoint label_runs (labels : list Z) : list (list Z) :=
  match labels with
  | [] => []
  | x :: rest =>
      match label_runs rest with
      | (y :: run) :: runs =>
          if Bool.eqb (masked x) (masked y) then (x :: y :: run) :: runs
          else [x] :: (y :: run) :: runs
      | _ => [[x]]
      end
  end.

Definition render_run (run : list Z) : string :=
  match run with
  | [] => ""
  | x :: _ => if masked x then marker (len run) else decode tokenizer run
  end.

Definition run_length_rendering (labels : list Z) : string :=
  foldr String.append "" (render_run <$> label_runs labels).
End LabelsStr.

(** ** Dynamic operations on values *)

Definition is_none (v : PyVal) : bool :=
  match v with VNone => true | _ => false end.

(** [v == 'literal']. *)
Definition py_eq_str (v : PyVal) (s : string) : bool :=
  match v with VStr t => String.eqb t s | _ => false end.

(** [v == n] for an integer literal [n]; a bool and a float compare by
    value ([True == 1], [4.0 == 4]). *)
Definition py_eq_int (v : PyVal) (n : Z) : bool :=
  match v with
  | VInt m => m =? n
  | VBool b => (if b then 1 else 0) =? n
  | VFloat r => String.eqb r (py_str_int n +:+ ".0")
                || ((n =? 0) && String.eqb r "-0.0")
  | _ => false
  end.

(** Truth value of an object, as [if v:] and [not v] take it. *)
Definition py_truthy (v : PyVal) : bool :=
  match v with
  | VNone => false
  | VBool b => b
  | VInt n => negb (n =? 0)
  | VFloat r => negb (String.eqb r "0.0" || String.eqb r "-0.0")
  | VStr s => negb (String.eqb s "")
  | VList l | VTuple l => match l with [] => false | _ => true end
  | VDtype _ => true
  end.

(** Lists are unhashable, tuples are hashable when their items are. *)
Fixpoint py_hashable (v : PyVal) : bool :=
  match v with
  | VList _ => false
  | VTuple l => forallb py_hashable l
  | _ => true
  end.

(** [needle in hay] for text. *)
Fixpoint str_contains (needle hay : string) : bool :=
  String.prefix needle hay
  || match hay with
     | EmptyString => false
     | String _ hay' => str_contains needle hay'
     end.

Definition str_endswith (suffix s : string) : bool :=
  String.prefix (String.rev suffix) (String.rev s).

(** [s.split(',')]. *)
Fixpoint split_comma (s : string) : list string :=
  match s with
  | EmptyString => [EmptyString]
  | String c s' =>
      if Ascii.eqb c (Ascii.ascii_of_nat 44) then EmptyString :: split_comma s'
      else match split_comma s' with
           | x :: xs => String c x :: xs
           | [] => [String c EmptyString]
           end
  end.

(** [s.lower()] on ASCII text. *)
Definition ascii_lower (c : Ascii.ascii) : Ascii.ascii :=
  let n := Ascii.nat_of_ascii c in
  if (Nat.leb 65 n && Nat.leb n 90)%bool then Ascii.ascii_of_nat (n + 32) else c.

Fixpoint str_lower (s : string) : string :=
  match s with
  | EmptyString => EmptyString
  | String c s' => String (ascii_lower c) (str_lower s')
  end.

(** [len(v)]. *)
Definition py_len (v : PyVal) : Result Z :=
  match v with
  | VStr s => Ok (Z.of_nat (String.length s))
  | VList l | VTuple l => Ok (len l)
  | _ => Err TypeError
  end.

(** [v[0]]. *)
Definition py_getitem0 (v : PyVal) : Result PyVal :=
  match v with
  | VStr s => match s with
              | EmptyString => Err IndexError
              | String c _ => Ok (VStr (String c EmptyString))
              end
  | VList l | VTuple l => py_index l 0
  | _ => Err TypeError
  end.

(** ['literal' in v]: substring of a string, member of a list or tuple. *)
Definition py_in_str (s : string) (v : PyVal) : Result bool :=
  match v with
  | VStr t => Ok (str_contains s t)
  | VList l | VTuple l => Ok (existsb (fun x => py_eq_str x s) l)
  | _ => Err TypeError
  end.

(** [v.split(',')], [v.startswith(p)], [v.lower()], [v.append(x)]. *)
Definition py_split_comma (v : PyVal) : Result PyVal :=
  match v with
  | VStr s => Ok (VList (VStr <$> split_comma s))
  | _ => Err (AttributeError "split")
  end.

Definition py_startswith (v : PyVal) (p : string) : Result bool :=
  match v with
  | VStr s => Ok (String.prefix p s)
  | _ => Err (AttributeError "startswith")
  end.

Definition py_lower (v : PyVal) : Result string :=
  match v with
  | VStr s => Ok (str_lower s)
  | _ => Err (AttributeError "lower")
  end.

Definition py_append (v x : PyVal) : Result PyVal :=
  match v with
  | VList l => Ok (VList (l ++ [x]))
  | _ => Err (AttributeError "append")
  end.

(** [posixpath.join(a, b)] of two path components. *)
Definition os_path_join (a b : string) : string :=
  if String.prefix "/" b then b
  else if String.eqb a "" || str_endswith "/" a then a +:+ b
  else a +:+ "/" +:+ b.

Definition py_os_path_join (a b : PyVal) : Result string :=
  match a, b with
  | VStr x, VStr y => Ok (os_path_join x y)
  | _, _ => Err TypeError
  end.

(** A dictionary with text keys, read at an arbitrary key: [d[key]] and
    [key in d]. *)
Definition dict_getitem {V} (d : gmap string V) (key : PyVal) : Result V :=
  match key with
  | VStr s => match d !! s with
              | Some v => Ok v
              | None => Err (KeyError key)
              end
  | _ => if py_hashable key then Err (KeyError key) else Err TypeError
  end.

(** ** Objects and the run-time environment *)

Inductive PyClass := SftArguments | InferArguments | RomeArguments.

(** An instance: its class and its attribute dictionary. *)
Record Obj := { obj_class : PyClass; obj_dict : gmap string PyVal }.

Definition isinstance_SftArguments (o : Obj) : bool :=
  match obj_class o with SftArguments => true | _ => false end.

(** [RomeArguments] derives from [InferArguments]. *)
Definition isinstance_InferArguments (o : Obj) : bool :=
  match obj_class o with InferArguments | RomeArguments => true | _ => false end.

Definition getattr (o : Obj) (k : string) : Result PyVal :=
  match obj_dict o !! k with
  | Some v => Ok v
  | None => Err (AttributeError k)
  end.

Definition getattr_default (o : Obj) (k : string) (d : PyVal) : PyVal :=
  default d (obj_dict o !! k).

Definition setattr (o : Obj) (k : string) (v : PyVal) : Obj :=
  {| obj_class := obj_class o; obj_dict := <[k := v]> (obj_dict o) |}.

(** An entry of the model registry [MODEL_MAPPING], with the keys the
    resolvers read. *)
Record ModelInfo := {
  mi_model_id_or_path : string;
  mi_revision : PyVal;
  mi_requires : list string;
  mi_torch_dtype : option Dtype;
  mi_support_flash_attn : option PyVal
}.

Definition set_revision (info : ModelInfo) (rev : PyVal) : ModelInfo :=
  {| mi_model_id_or_path := mi_model_id_or_path info;
     mi_revision := rev;
     mi_requires := mi_requires info;
     mi_torch_dtype := mi_torch_dtype info;
     mi_support_flash_attn := mi_support_flash_attn info |}.

(** The content of a persisted snapshot once parsed: a flat object, or
    some other JSON value. *)
Inductive Json :=
| JObject (fields : gmap string PyVal)
| JOther (v : PyVal).

Inductive LogLevel := INFO | WARNING.

(** The mutable process state the resolvers touch.  [MODEL_MAPPING] keeps
    its insertion order, which decides the reverse lookup by path. *)
Record Runtime := {
  MODEL_MAPPING : list (string * ModelInfo);
  DATASET_MAPPING : gmap string (PyVal * PyVal);
  cuda_device : option Z;
  process_group : option PyVal;
  log : list (LogLevel * fstring)
}.

Definition logger (lvl : LogLevel) (msg : fstring) (rt : Runtime) : Runtime :=
  {| MODEL_MAPPING := MODEL_MAPPING rt;
     DATASET_MAPPING := DATASET_MAPPING rt;
     cuda_device := cuda_device rt;
     process_group := process_group rt;
     log := log rt ++ [(lvl, msg)] |}.

Definition set_MODEL_MAPPING (mm : list (string * ModelInfo)) (rt : Runtime) : Runtime :=
  {| MODEL_MAPPING := mm;
     DATASET_MAPPING := DATASET_MAPPING rt;
     cuda_device := cuda_device rt;
     process_group := process_group rt;
     log := log rt |}.

Definition set_DATASET_MAPPING (dm : gmap string (PyVal * PyVal)) (rt : Runtime) : Runtime :=
  {| MODEL_MAPPING := MODEL_MAPPING rt;
     DATASET_MAPPING := dm;
     cuda_device := cuda_device rt;
     process_group := process_group rt;
     log := log rt |}.

Definition set_cuda_device (d : Z) (rt : Runtime) : Runtime :=
  {| MODEL_MAPPING := MODEL_MAPPING rt;
     DATASET_MAPPING := DATASET_MAPPING rt;
     cuda_device := Some d;
     process_group := process_group rt;
     log := log rt |}.

Definition set_process_group (backend : PyVal) (rt : Runtime) : Runtime :=
  {| MODEL_MAPPING := MODEL_MAPPING rt;
     DATASET_MAPPING := DATASET_MAPPING rt;
     cuda_device := cuda_device rt;
     process_group := Some backend;
     log := log rt |}.

(** What the resolvers ask of the world outside them: the file system
    behind [os.path], the accelerator and the process group, and those
    helpers and constants of the package that live in other modules. *)
Record Env := {
  expanduser : string -> string;
  abspath : string -> string;
  path_exists : string -> bool;
  json_load : string -> Result Json;
  is_bf16_supported : bool;
  is_master : bool;
  is_dist : bool;
  get_dist_setting : Z * Z * Z * Z;
  broadcast_string : PyVal -> PyVal;
  float_add_int : string -> Z -> string;
  add_version_to_work_dir : string -> string;
  require_version : string -> bool;
  register_dataset :
    gmap string (PyVal * PyVal) -> string -> string -> PyVal -> PyVal ->
    Result (gmap string (PyVal * PyVal));
  TemplateType_chatml : string
}.

(** Modelled from the spec: the table [dtype_mapping] of
    [swift/llm/utils/model.py], a module that is not among the sources
    embedded here.  The
    specification knows exactly three concrete precisions; their names
    are the [choices] of the [dtype] field. *)
Definition dtype_mapping (d : Dtype) : string :=
  match d with
  | float16 => "fp16"
  | bfloat16 => "bf16"
  | float32 => "fp32"
  end.

(** [{v: k for k, v in dtype_mapping.items()}]. *)
Definition dtype_mapping_reversed : gmap string Dtype :=
  list_to_map ((fun d => (dtype_mapping d, d)) <$> [float32; bfloat16; float16]).

(** ** The resolvers of [argument.py] *)

Section Resolvers.
Variable env : Env.

(** [select_dtype]: the precision of the run and the [fp16] and [bf16]
    flags.  The assertion that the precision is one of the three holds by
    the type [Dtype]. *)
Definition select_dtype (args : Obj) (rt : Runtime)
  : Result ((Dtype * bool * bool) * Obj * Runtime) :=
  dtype ← getattr args "dtype";
  let args :=
    if py_eq_str dtype "AUTO" && negb (is_bf16_supported env)
    then setattr args "dtype" (VStr "fp16") else args in
  c ← py_and (dtype ← getattr args "dtype"; mret (py_eq_str dtype "AUTO"))
             (py_or (model_type ← getattr args "model_type"; py_in_str "int4" model_type)
                    (model_type ← getattr args "model_type"; py_in_str "int8" model_type));
  args ← (if c : bool then
            model_type ← getattr args "model_type";
            info ← dict_getitem (list_to_map (MODEL_MAPPING rt)) model_type;
            match mi_torch_dtype info with
            | Some model_torch_dtype =>
                mret (setattr args "dtype" (VStr (dtype_mapping model_torch_dtype)))
            | None => mret args
            end
          else mret args);
  dtype ← getattr args "dtype";
  let args :=
    if py_eq_str dtype "AUTO" then setattr args "dtype" (VStr "bf16") else args in
  dtype ← getattr args "dtype";
  torch_dtype ← dict_getitem dtype_mapping_reversed dtype;
  match torch_dtype with
  | float16 =>
      sft_full ← (if isinstance_SftArguments args
                  then sft_type ← getattr args "sft_type";
                       mret (py_eq_str sft_type "full")
                  else mret false);
      if sft_full : bool then
        mret ((float32, true, false), args,
              logger WARNING [Lit "Setting torch_dtype: torch.float32"] rt)
      else mret ((float16, true, false), args, rt)
  | bfloat16 =>
      let support_bf16 := is_bf16_supported env in
      let rt := if negb support_bf16
                then logger WARNING [Lit "support_bf16: "; Fmt (VBool support_bf16)] rt
                else rt in
      mret ((bfloat16, false, true), args, rt)
  | float32 => mret ((float32, false, false), args, rt)
  end.

(** [select_bnb]: the compute precision of the quantized layers and the
    two loading flags. *)
Definition select_bnb (args : Obj) : Result ((Dtype * bool * bool) * Obj) :=
  comp ← getattr args "bnb_4bit_comp_dtype";
  args ← (if py_eq_str comp "AUTO"
          then dtype ← getattr args "dtype";
               mret (setattr args "bnb_4bit_comp_dtype" dtype)
          else mret args);
  quantization_bit ← getattr args "quantization_bit";
  comp ← getattr args "bnb_4bit_comp_dtype";
  bnb_4bit_compute_dtype ← dict_getitem dtype_mapping_reversed comp;
  if py_eq_int quantization_bit 4 then
    if require_version env "bitsandbytes"
    then mret ((bnb_4bit_compute_dtype, true, false), args)
    else Err (PackageError "bitsandbytes")
  else if py_eq_int quantization_bit 8 then
    if require_version env "bitsandbytes"
    then mret ((bnb_4bit_compute_dtype, false, true), args)
    else Err (PackageError "bitsandbytes")
  else mret ((bnb_4bit_compute_dtype, false, false), args).

(** The conditions of the four rewrites of [handle_compatibility]. *)
Definition dataset_is_comma_joined (args : Obj) : Result bool :=
  py_and (dataset ← getattr args "dataset"; mret (negb (is_none dataset)))
    (py_and (dataset ← getattr args "dataset"; n ← py_len dataset; mret (n =? 1))
            (dataset ← getattr args "dataset"; d0 ← py_getitem0 dataset;
             py_in_str "," d0)).

Definition lora_target_is_auto (args : Obj) : Result bool :=
  py_and (mret (isinstance_SftArguments args))
    (py_and (lora ← getattr args "lora_target_modules";
             mret (match lora with VList _ | VTuple _ => true | _ => false end))
       (py_and (lora ← getattr args "lora_target_modules"; py_in_str "AUTO" lora)
               (lora ← getattr args "lora_target_modules";
                n ← py_len lora; mret (n =? 1)))).

Definition show_dataset_sample_overrides (args : Obj) : Result bool :=
  py_and (mret (isinstance_InferArguments args))
    (py_and (show ← getattr args "show_dataset_sample";
             mret (negb (py_eq_int show 10)))
            (val ← getattr args "val_dataset_sample"; mret (py_eq_int val 10))).

(** [handle_compatibility]: a comma-joined dataset name is split and
    the aliases of earlier releases are replaced. *)
Definition handle_compatibility (args : Obj) : Result Obj :=
  c ← dataset_is_comma_joined args;
  args ← (if c : bool then
            dataset ← getattr args "dataset";
            d0 ← py_getitem0 dataset;
            parts ← py_split_comma d0;
            mret (setattr args "dataset" parts)
          else mret args);
  template_type ← getattr args "template_type";
  let args :=
    if py_eq_str template_type "chatglm2-generation"
    then setattr args "template_type" (VStr "chatglm-generation") else args in
  template_type ← getattr args "template_type";
  let args :=
    if py_eq_str template_type "qwen"
    then setattr args "template_type" (VStr (TemplateType_chatml env)) else args in
  c ← lora_target_is_auto args;
  let args :=
    if c : bool then setattr args "lora_target_modules" (VList [VStr "DEFAULT"])
    else args in
  c ← show_dataset_sample_overrides args;
  if c : bool then
    show ← getattr args "show_dataset_sample";
    mret (setattr args "val_dataset_sample" show)
  else mret args.

(** [_check_path]: a path is expanded and made absolute, and has to exist
    when its key is one of [check_exist_path_set]; a list of paths is
    treated item by item; any other value is returned as it is. *)
Fixpoint _check_path (k : string) (value : PyVal) (check_exist_path_set : list string)
  : Result PyVal :=
  match value with
  | VStr value =>
      let value := expanduser env value in
      let value := abspath env value in
      if bool_decide (k ∈ check_exist_path_set) && negb (path_exists env value)
      then Err (FileNotFoundError
                  [Lit "`"; Fmt (VStr k); Lit "`: '"; Fmt (VStr value); Lit "'"])
      else mret (VStr value)
  | VList value =>
      res ← map_result (fun v => _check_path k v check_exist_path_set) value;
      mret (VList res)
  | _ => mret value
  end.

(** Whether [model_id_or_path] is given as a local path. *)
Definition model_id_or_path_is_local (args : Obj) : Result bool :=
  py_and (m ← getattr args "model_id_or_path"; mret (negb (is_none m)))
    (py_or (m ← getattr args "model_id_or_path"; py_startswith m "~")
           (m ← getattr args "model_id_or_path"; py_startswith m "/")).

(** The body of the loop of [handle_path] over the path-like keys. *)
Definition handle_path_step (check_exist_path_set : list string) (k : string) (args : Obj)
  : Result Obj :=
  let value := getattr_default args k VNone in
  if is_none value then mret args
  else
    value ← _check_path k value check_exist_path_set;
    mret (setattr args k value).

(** [handle_path]: every path-like attribute that is set goes through
    [_check_path]. *)
Definition handle_path (args : Obj) : Result Obj :=
  let check_exist_path :=
    ["model_cache_dir"; "ckpt_dir"; "resume_from_checkpoint";
     "deepspeed_config_path"; "custom_train_dataset_path";
     "custom_val_dataset_path"] in
  c ← model_id_or_path_is_local args;
  let check_exist_path :=
    if c : bool then check_exist_path ++ ["model_id_or_path"] else check_exist_path in
  let check_exist_path_set := check_exist_path in
  let other_path := ["output_dir"; "logging_dir"] in
  for_each (check_exist_path ++ other_path) (handle_path_step check_exist_path_set) args.

(** [{v['model_id_or_path'].lower(): k for k, v in MODEL_MAPPING.items()}]:
    of two models with the same path the later one is kept. *)
Definition model_mapping_reversed (mm : list (string * ModelInfo))
  : gmap string string :=
  list_to_map (reverse ((fun kv => (str_lower (mi_model_id_or_path kv.2), kv.1)) <$> mm)).

(** [model_info['revision'] = rev] for the entry registered under [k]. *)
Definition update_revision (k : string) (rev : PyVal) (mm : list (string * ModelInfo))
  : list (string * ModelInfo) :=
  (fun kv => if String.eqb kv.1 k then (kv.1, set_revision kv.2 rev) else kv) <$> mm.

(** [set_model_type]: the model is named by its type or by its path, not
    both; a path is looked up in the registry, ignoring case; the
    revision is taken from the registry, or written to it when one was
    given; the requirements of the model are checked. *)
Definition set_model_type (args : Obj) (rt : Runtime) : Result (Obj * Runtime) :=
  ok ← py_or (model_type ← getattr args "model_type"; mret (is_none model_type))
             (m ← getattr args "model_id_or_path"; mret (is_none m));
  if negb ok then Err (AssertionError []) else
  m ← getattr args "model_id_or_path";
  args ← (if negb (is_none m) then
            let model_mapping_reversed := model_mapping_reversed (MODEL_MAPPING rt) in
            model_id_or_path ← getattr args "model_id_or_path";
            model_id_or_path_lower ← py_lower model_id_or_path;
            match model_mapping_reversed !! model_id_or_path_lower with
            | None =>
                let error_msg :=
                  [Lit "`model_id_or_path`: '"; Fmt model_id_or_path;
                   Lit "' is not registered."] in
                let error_msg :=
                  if (match model_id_or_path with
                      | VStr p => path_exists env p
                      | _ => false
                      end)
                  then error_msg ++
                       [Lit " Please use `model_cache_dir` to specify the local cache path for the model."]
                  else error_msg in
                Err (ValueError error_msg)
            | Some k => mret (setattr args "model_type" (VStr k))
            end
          else mret args);
  model_type ← getattr args "model_type";
  if is_none model_type then
    Err (ValueError [Lit "please setting `--model_type xxx` or `--model_id_or_path xxx`"])
  else
  match (match model_type with
         | VStr s => (list_to_map (MODEL_MAPPING rt) : gmap string ModelInfo) !! s
         | _ => None
         end) with
  | None =>
      if py_hashable model_type
      then Err (ValueError [Lit "model_type: "; Fmt model_type; Lit " is not registered."])
      else Err TypeError
  | Some model_info =>
      model_revision ← getattr args "model_revision";
      let '(args, rt) :=
        if is_none model_revision
        then (setattr args "model_revision" (mi_revision model_info), rt)
        else (args,
              set_MODEL_MAPPING
                (update_revision (match model_type with VStr s => s | _ => "" end)
                   model_revision (MODEL_MAPPING rt)) rt) in
      let args := setattr args "model_id_or_path" (VStr (mi_model_id_or_path model_info)) in
      let requires := mi_requires model_info in
      _ ← for_each requires
            (fun require (_ : unit) =>
               if require_version env require then mret tt
               else Err (PackageError require)) tt;
      mret (args, rt)
  end.

(** [register_custom_dataset]: custom dataset files, when there are any,
    are registered under the name [_custom_dataset], which is added to
    the datasets of the run. *)
Definition register_custom_dataset (args : Obj) (rt : Runtime)
  : Result (Obj * Runtime) :=
  train ← getattr args "custom_train_dataset_path";
  let args := if is_none train
              then setattr args "custom_train_dataset_path" (VList []) else args in
  val ← getattr args "custom_val_dataset_path";
  let args := if is_none val
              then setattr args "custom_val_dataset_path" (VList []) else args in
  c ← py_and (train ← getattr args "custom_train_dataset_path";
              n ← py_len train; mret (n =? 0))
             (val ← getattr args "custom_val_dataset_path";
              n ← py_len val; mret (n =? 0));
  if c : bool then mret (args, rt) else
  let dm := DATASET_MAPPING rt in
  let dm := match dm !! "_custom_dataset" with
            | Some _ => delete "_custom_dataset" dm
            | None => dm
            end in
  train ← getattr args "custom_train_dataset_path";
  val ← getattr args "custom_val_dataset_path";
  dm ← register_dataset env dm "_custom_dataset" "_custom_dataset" train val;
  let rt := set_DATASET_MAPPING dm rt in
  dataset ← getattr args "dataset";
  if is_none dataset then
    mret (setattr args "dataset" (VList [VStr "_custom_dataset"]), rt)
  else
    present ← py_in_str "_custom_dataset" dataset;
    if present : bool then mret (args, rt)
    else
      dataset ← py_append dataset (VStr "_custom_dataset");
      mret (setattr args "dataset" dataset, rt).

(** The dataset-related keys, imported only when the run is not a
    human evaluation. *)
Definition dataset_keys : list string :=
  ["dataset"; "dataset_seed"; "dataset_test_ratio";
   "check_dataset_strategy"; "custom_train_dataset_path";
   "custom_val_dataset_path"].

(** The allow-list [imported_keys] of [load_from_ckpt_dir]. *)
Definition imported_keys (eval_human : PyVal) : list string :=
  let imported_keys :=
    ["model_type"; "model_id_or_path"; "model_revision"; "model_cache_dir";
     "sft_type"; "template_type"; "dtype"; "system"; "quantization_bit";
     "bnb_4bit_comp_dtype"; "bnb_4bit_quant_type";
     "bnb_4bit_use_double_quant"] in
  if negb (py_truthy eval_human) then imported_keys ++ dataset_keys
  else imported_keys.

(** The keys whose current value, when there is one, is kept. *)
Definition kept_if_set : list string :=
  ["model_cache_dir"; "dataset"; "custom_train_dataset_path";
   "custom_val_dataset_path"].

(** The body of the loop over [imported_keys]. *)
Definition import_key (sft_args : Json) (key : string) (args : Obj) : Result Obj :=
  skip ← py_and (mret (bool_decide (key ∈ kept_if_set)))
                (v ← getattr args key; mret (negb (is_none v)));
  if skip : bool then mret args
  else
    match sft_args with
    | JObject fields => mret (setattr args key (default VNone (fields !! key)))
    | JOther _ => Err (AttributeError "get")
    end.

(** [load_from_ckpt_dir]: the arguments of the training run, read from
    [sft_args.json] in the checkpoint directory, replace those of the
    instance. *)
Definition load_from_ckpt_dir (args : Obj) (rt : Runtime) : Result (Obj * Runtime) :=
  ckpt_dir ← getattr args "ckpt_dir";
  sft_args_path ← py_os_path_join ckpt_dir (VStr "sft_args.json");
  if negb (path_exists env sft_args_path) then
    mret (args, logger INFO [Fmt (VStr sft_args_path); Lit " not found"] rt)
  else
  sft_args ← json_load env sft_args_path;
  eval_human ← getattr args "eval_human";
  let imported_keys := imported_keys eval_human in
  args ← for_each imported_keys (import_key sft_args) args;
  mret (args, rt).

(** [check_flash_attn]: a warning when flash attention is asked of a
    model that does not support it. *)
Definition check_flash_attn (args : Obj) (rt : Runtime) : Result Runtime :=
  model_type ← getattr args "model_type";
  model_info ← dict_getitem (list_to_map (MODEL_MAPPING rt)) model_type;
  let support_flash_attn := default (VBool false) (mi_support_flash_attn model_info) in
  use_flash_attn ← getattr args "use_flash_attn";
  if py_truthy use_flash_attn && negb (py_truthy support_flash_attn) then
    mret (logger WARNING
            [Lit "use_flash_attn: "; Fmt use_flash_attn;
             Lit ", but support_flash_attn: "; Fmt support_flash_attn] rt)
  else mret rt.
End Resolvers.

(** An instance has the attributes [ks]. *)
Definition has_attrs (ks : list string) (o : Obj) : Prop :=
  Forall (fun k => is_Some (obj_dict o !! k)) ks.

(** ** The argument classes *)

(** [v += n] for an integer [n]. *)
Definition py_iadd_int (env : Env) (v : PyVal) (n : Z) : Result PyVal :=
  match v with
  | VInt m => Ok (VInt (m + n))
  | VBool b => Ok (VInt ((if b then 1 else 0) + n))
  | VFloat r => Ok (VFloat (float_add_int env r n))
  | _ => Err TypeError
  end.

(** The fields of [SftArguments] with their declared defaults. *)
Definition SftArguments_fields : list (string * PyVal) :=
  [("model_type", VNone); ("model_id_or_path", VNone); ("model_revision", VNone);
   ("model_cache_dir", VNone);
   ("sft_type", VStr "lora"); ("tuner_backend", VStr "swift");
   ("template_type", VStr "AUTO"); ("output_dir", VStr "output");
   ("add_output_dir_suffix", VBool true); ("ddp_backend", VStr "nccl");
   ("seed", VInt 42); ("resume_from_checkpoint", VNone); ("dtype", VStr "AUTO");
   ("dataset", VNone); ("dataset_seed", VInt 42); ("dataset_test_ratio", VFloat "0.01");
   ("train_dataset_sample", VInt 20000); ("val_dataset_sample", VNone);
   ("system", VStr "you are a helpful assistant!"); ("max_length", VInt 2048);
   ("truncation_strategy", VStr "truncation_left");
   ("check_dataset_strategy", VStr "none");
   ("custom_train_dataset_path", VNone); ("custom_val_dataset_path", VNone);
   ("quantization_bit", VInt 0); ("bnb_4bit_comp_dtype", VStr "AUTO");
   ("bnb_4bit_quant_type", VStr "nf4"); ("bnb_4bit_use_double_quant", VBool true);
   ("lora_target_modules", VNone); ("lora_rank", VInt 8); ("lora_alpha", VInt 32);
   ("lora_dropout_p", VFloat "0.05"); ("neftune_alpha", VFloat "0.0");
   ("gradient_checkpointing", VBool true); ("deepspeed_config_path", VNone);
   ("batch_size", VInt 1); ("eval_batch_size", VNone); ("num_train_epochs", VInt 1);
   ("max_steps", VInt (-1)); ("optim", VStr "adamw_torch"); ("learning_rate", VNone);
   ("weight_decay", VFloat "0.01"); ("gradient_accumulation_steps", VInt 16);
   ("max_grad_norm", VFloat "0.5"); ("predict_with_generate", VBool false);
   ("lr_scheduler_type", VStr "cosine"); ("warmup_ratio", VFloat "0.05");
   ("eval_steps", VInt 50); ("save_steps", VNone); ("only_save_model", VNone);
   ("save_total_limit", VInt 2); ("logging_steps", VInt 5);
   ("dataloader_num_workers", VInt 1);
   ("push_to_hub", VBool false); ("hub_model_id", VNone);
   ("hub_private_repo", VBool true); ("push_hub_strategy", VStr "push_best");
   ("hub_token", VNone);
   ("test_oom_error", VBool false); ("use_flash_attn", VNone);
   ("ignore_args_error", VBool false); ("logging_dir", VNone); ("report_to", VNone);
   ("check_model_is_latest", VBool true);
   ("max_new_tokens", VInt 2048); ("do_sample", VBool true);
   ("temperature", VFloat "0.3"); ("top_k", VInt 20); ("top_p", VFloat "0.7");
   ("repetition_penalty", VFloat "1.05")].

(** The fields of [InferArguments] with their declared defaults. *)
Definition InferArguments_fields : list (string * PyVal) :=
  [("model_type", VNone); ("model_id_or_path", VNone); ("model_revision", VNone);
   ("model_cache_dir", VNone);
   ("sft_type", VStr "lora"); ("template_type", VStr "AUTO"); ("ckpt_dir", VNone);
   ("load_args_from_ckpt_dir", VBool true); ("eval_human", VBool false);
   ("seed", VInt 42); ("dtype", VStr "AUTO");
   ("dataset", VNone); ("dataset_seed", VInt 42); ("dataset_test_ratio", VFloat "0.01");
   ("val_dataset_sample", VInt 10); ("save_result", VBool true);
   ("system", VStr "you are a helpful assistant!"); ("max_length", VInt 2048);
   ("truncation_strategy", VStr "truncation_left");
   ("check_dataset_strategy", VStr "none");
   ("custom_train_dataset_path", VNone); ("custom_val_dataset_path", VNone);
   ("quantization_bit", VInt 0); ("bnb_4bit_comp_dtype", VStr "AUTO");
   ("bnb_4bit_quant_type", VStr "nf4"); ("bnb_4bit_use_double_quant", VBool true);
   ("max_new_tokens", VInt 2048); ("do_sample", VBool true);
   ("temperature", VFloat "0.3"); ("top_k", VInt 20); ("top_p", VFloat "0.7");
   ("repetition_penalty", VFloat "1.05");
   ("use_flash_attn", VNone); ("ignore_args_error", VBool false);
   ("stream", VBool true); ("merge_lora_and_save", VBool false);
   ("overwrite_generation_config", VBool false);
   ("show_dataset_sample", VInt 10)].

(** The instance the generated [__init__] builds from keyword arguments,
    before [__post_init__] runs. *)
Definition new_instance (cls : PyClass) (kwargs : list (string * PyVal)) : Obj :=
  let fields := match cls with
                | SftArguments => SftArguments_fields
                | InferArguments => InferArguments_fields
                | RomeArguments => InferArguments_fields ++ [("rome_request_file", VNone)]
                end in
  {| obj_class := cls; obj_dict := list_to_map (kwargs ++ fields) |}.

Section PostInit.
Variable env : Env.

(** The block of [SftArguments.__post_init__] that appends the model type
    and a version to [output_dir]. *)
Definition output_dir_suffix (self : Obj) (rt : Runtime) : Result (Obj * Runtime) :=
  add_output_dir_suffix ← getattr self "add_output_dir_suffix";
  if py_truthy add_output_dir_suffix then
    output_dir ← getattr self "output_dir";
    model_type ← getattr self "model_type";
    output_dir ← py_os_path_join output_dir model_type;
    let self := setattr self "output_dir" (VStr output_dir) in
    if is_master env then
      let output_dir := add_version_to_work_dir env output_dir in
      mret (setattr self "output_dir" (VStr output_dir),
            logger INFO [Lit "output_dir: "; Fmt (VStr output_dir)] rt)
    else mret (self, rt)
  else mret (self, rt).

(** The block under [if is_dist():]. *)
Definition init_distributed (self : Obj) (rt : Runtime) : Result (Obj * Runtime) :=
  if is_dist env then
    let '(rank, local_rank, _, _) := get_dist_setting env in
    let rt := set_cuda_device local_rank rt in
    seed ← getattr self "seed";
    seed ← py_iadd_int env seed rank;
    let self := setattr self "seed" seed in
    c ← py_and (ddp_backend ← getattr self "ddp_backend";
                mret (py_eq_str ddp_backend "gloo"))
               (q ← getattr self "quantization_bit"; mret (negb (py_eq_int q 0)));
    if c : bool then Err (ValueError [Lit "not supported, please use `nccl`"])
    else
      rt ← (match process_group rt with
            | Some _ => mret rt
            | None => ddp_backend ← getattr self "ddp_backend";
                      mret (set_process_group ddp_backend rt)
            end);
      output_dir ← getattr self "output_dir";
      mret (setattr self "output_dir" (broadcast_string env output_dir), rt)
  else mret (self, rt).

(** The dispatch on [sft_type], with the defaults and the checks of each
    branch. *)
Definition sft_type_defaults (self : Obj) : Result Obj :=
  sft_type ← getattr self "sft_type";
  if py_eq_str sft_type "lora" || py_eq_str sft_type "longlora"
     || py_eq_str sft_type "qalora" then
    learning_rate ← getattr self "learning_rate";
    let self := if is_none learning_rate
                then setattr self "learning_rate" (VFloat "0.0001") else self in
    only_save_model ← getattr self "only_save_model";
    if is_none only_save_model then
      deepspeed_config_path ← getattr self "deepspeed_config_path";
      if is_none deepspeed_config_path
      then mret (setattr self "only_save_model" (VBool false))
      else mret (setattr self "only_save_model" (VBool true))
    else mret self
  else if py_eq_str sft_type "full" then
    q ← getattr self "quantization_bit";
    if negb (py_eq_int q 0) then Err (AssertionError [Lit "not supported"]) else
    dtype ← getattr self "dtype";
    if py_eq_str dtype "fp16" then Err (AssertionError [Lit "please use bf16 or fp32"])
    else
    learning_rate ← getattr self "learning_rate";
    let self := if is_none learning_rate
                then setattr self "learning_rate" (VFloat "2e-05") else self in
    only_save_model ← getattr self "only_save_model";
    let self := if is_none only_save_model
                then setattr self "only_save_model" (VBool true) else self in
    mret self
  else Err (ValueError [Lit "sft_type: "; Fmt sft_type]).

(** [SftArguments.__post_init__] from its first statement through the
    dispatch on [sft_type].  The statements that follow (template,
    dataset and LoRA defaults, quantization flags, hub login, deepspeed)
    only run once this part has returned. *)
Definition SftArguments_post_init (self : Obj) (rt : Runtime)
  : Result (Obj * Runtime) :=
  self ← handle_compatibility env self;
  self ← handle_path env self;
  '(self, rt) ← set_model_type env self rt;
  '(self, rt) ← register_custom_dataset env self rt;
  rt ← check_flash_attn self rt;
  '(self, rt) ← output_dir_suffix self rt;
  '(res, self, rt) ← select_dtype env self rt;
  let '(torch_dtype, fp16, bf16) := res in
  let self := setattr self "torch_dtype" (VDtype torch_dtype) in
  let self := setattr self "fp16" (VBool fp16) in
  let self := setattr self "bf16" (VBool bf16) in
  '(self, rt) ← init_distributed self rt;
  self ← sft_type_defaults self;
  mret (self, rt).
End PostInit.

(** Adjacent runs differ in maskedness, and a run is a non-empty block of
    ids that are all masked or all non-masked. *)
Inductive alternating : list (list Z) -> Prop :=
| alternating_nil : alternating []
| alternating_one (r : list Z) : alternating [r]
| alternating_cons (r1 r2 : list Z) (rs : list (list Z)) (x y : Z) :
    head r1 = Some x -> head r2 = Some y -> masked x <> masked y ->
    alternating (r2 :: rs) -> alternating (r1 :: r2 :: rs).

Definition uniform_run (r : list Z) : Prop :=
  r <> [] /\ exists b, Forall (fun x => masked x = b) r.

(** ** Normal forms of a configuration *)

(** What is assumed of [os.path] on a POSIX system: [expanduser] only
    touches a path that starts with a tilde, [abspath] returns a path
    that starts with a slash, and [abspath] leaves its own results
    alone. *)
Record posix_paths (env : Env) : Prop := {
  expanduser_no_tilde :
    forall p, String.prefix "~" p = false -> expanduser env p = p;
  abspath_absolute :
    forall p, String.prefix "/" (abspath env p) = true;
  abspath_idempotent :
    forall p, abspath env (abspath env p) = abspath env p
}.

(** The value under a path-like key needs no more normalising: the key is
    unset, or [None], or [_check_path] returns its value as it is. *)
Definition path_normal (env : Env) (check_exist_path_set : list string)
    (k : string) (args : Obj) : Prop :=
  match obj_dict args !! k with
  | None => True
  | Some v => is_none v = true \/ _check_path env k v check_exist_path_set = Ok v
  end.

(** None of the rewrites of [handle_compatibility] applies. *)
Definition compat_stable (env : Env) (args : Obj) : Prop :=
  dataset_is_comma_joined args = Ok false
  /\ (exists t, obj_dict args !! "template_type" = Some t
                /\ py_eq_str t "chatglm2-generation" = false
                /\ (py_eq_str t "qwen" = false \/ t = VStr (TemplateType_chatml env)))
  /\ lora_target_is_auto args = Ok false
  /\ show_dataset_sample_overrides args = Ok false.

(** The two normalising passes every [__post_init__] starts with. *)
Definition normalize (env : Env) (args : Obj) : Result Obj :=
  args ← handle_compatibility env args;
  handle_path env args.

(** ** Full-parameter training in half precision *)

(** [SftArguments.__post_init__] in two parts: the statements before the
    call of [select_dtype], which settle the paths and the model, and the
    statements from that call through the dispatch on [sft_type]. *)
Definition SftArguments_before_select_dtype (env : Env) (self : Obj) (rt : Runtime)
  : Result (Obj * Runtime) :=
  self ← handle_compatibility env self;
  self ← handle_path env self;
  '(self, rt) ← set_model_type env self rt;
  '(self, rt) ← register_custom_dataset env self rt;
  rt ← check_flash_attn self rt;
  output_dir_suffix env self rt.

Definition SftArguments_from_select_dtype (env : Env) (self : Obj) (rt : Runtime)
  : Result (Obj * Runtime) :=
  '(res, self, rt) ← select_dtype env self rt;
  let '(torch_dtype, fp16, bf16) := res in
  let self := setattr self "torch_dtype" (VDtype torch_dtype) in
  let self := setattr self "fp16" (VBool fp16) in
  let self := setattr self "bf16" (VBool bf16) in
  '(self, rt) ← init_distributed env self rt;
  self ← sft_type_defaults self;
  mret (self, rt).

(** The attributes the statements before [select_dtype] may write. *)
Definition written_before_select_dtype : list string :=
  ["dataset"; "template_type"; "lora_target_modules"; "val_dataset_sample";
   "model_cache_dir"; "ckpt_dir"; "resume_from_checkpoint";
   "deepspeed_config_path"; "custom_train_dataset_path";
   "custom_val_dataset_path"; "model_id_or_path"; "output_dir"; "logging_dir";
   "model_type"; "model_revision"].

(** Two instances of one class that differ at most on the keys [W]. *)
Definition same_except (W : list string) (a b : Obj) : Prop :=
  obj_class b = obj_class a
  /\ forall k, k ∉ W -> obj_dict b !! k = obj_dict a !! k.

(** The registry keeps every model and its precision. *)
Definition registry_kept (rt rt' : Runtime) : Prop :=
  forall m info,
    (list_to_map (MODEL_MAPPING rt) : gmap string ModelInfo) !! m = Some info ->
    exists info',
      (list_to_map (MODEL_MAPPING rt') : gmap string ModelInfo) !! m = Some info'
      /\ mi_torch_dtype info' = mi_torch_dtype info.


(** ** Resolved paths *)

(** A value as [_check_path] leaves it: a text is the absolute form of
    some path, and names something that exists when the key is one whose
    paths have to ([must_exist]); a list holds such values; anything
    else is as it was. *)
Inductive path_resolved (env : Env) (must_exist : bool) : PyVal -> Prop :=
| path_resolved_str (p : string) :
    (must_exist = true -> path_exists env (abspath env (expanduser env p)) = true) ->
    path_resolved env must_exist (VStr (abspath env (expanduser env p)))
| path_resolved_list (l : list PyVal) :
    Forall (path_resolved env must_exist) l -> path_resolved env must_exist (VList l)
| path_resolved_none : path_resolved env must_exist VNone
| path_resolved_bool (b : bool) : path_resolved env must_exist (VBool b)
| path_resolved_int (n : Z) : path_resolved env must_exist (VInt n)
| path_resolved_float (r : string) : path_resolved env must_exist (VFloat r)
| path_resolved_tuple (l : list PyVal) : path_resolved env must_exist (VTuple l)
| path_resolved_dtype (d : Dtype) : path_resolved env must_exist (VDtype d).

(** The keys whose paths [handle_path] always requires to exist, and the
    two it only makes absolute. *)
Definition check_exist_path : list string :=
  ["model_cache_dir"; "ckpt_dir"; "resume_from_checkpoint";
   "deepspeed_config_path"; "custom_train_dataset_path";
   "custom_val_dataset_path"].
Definition other_path : list string := ["output_dir"; "logging_dir"].

(** ** Vocabulary of the postconditions *)

Definition is_float16 (d : Dtype) : bool :=
  match d with float16 => true | _ => false end.
Definition is_bfloat16 (d : Dtype) : bool :=
  match d with bfloat16 => true | _ => false end.

(** The attributes [handle_compatibility] may write, by class. *)
Definition compat_writes (cls : PyClass) : list string :=
  ["dataset"; "template_type"]
  ++ match cls with
     | SftArguments => ["lora_target_modules"]
     | InferArguments | RomeArguments => ["val_dataset_sample"]
     end.

(** ** Sample inputs *)

(** A template whose encoding takes five tokens for the query and three
    for every turn of history. *)
Definition linear_template : Template :=
  {| encode_input_ids := fun ex => replicate (5 + 3 * length (ex_history ex)) 0 |}.

Definition three_turns : History := [("q1", "r1"); ("q2", "r2"); ("q3", "r3")].

(** The vector of the test suite, with a tokenizer that brackets each id. *)
Definition bracket_tokenizer : Tokenizer :=
  {| decode := fun ids =>
       foldr String.append "" ((fun z => "<" +:+ py_str_int z +:+ ">") <$> ids) |}.


(** A POSIX-like world: the home directory is [/home/user], the working
    directory [/work], every path exists unless its name says [missing],
    the accelerator supports bfloat16 and the process runs alone. *)
Definition sample_snapshot : gmap string PyVal :=
  list_to_map
    [("model_type", VStr "qwen-7b-chat"); ("sft_type", VStr "lora");
     ("template_type", VStr "chatml"); ("dtype", VStr "bf16");
     ("dataset", VList [VStr "alpaca-en"]); ("dataset_seed", VInt 7);
     ("model_cache_dir", VStr "/snapshot/cache")].

Definition sample_env : Env :=
  {| expanduser := fun p =>
       match p with
       | String c rest =>
           if Ascii.eqb c (Ascii.ascii_of_nat 126) && (String.eqb rest "" || String.prefix "/" rest)
           then "/home/user" +:+ rest else p
       | EmptyString => p
       end;
     abspath := fun p => if String.prefix "/" p then p else "/work/" +:+ p;
     path_exists := fun p => negb (str_contains "missing" p);
     json_load := fun _ => Ok (JObject sample_snapshot);
     is_bf16_supported := true;
     is_master := true;
     is_dist := false;
     get_dist_setting := (-1, -1, 1, 1);
     broadcast_string := fun v => v;
     float_add_int := fun r _ => r;
     add_version_to_work_dir := fun d => d +:+ "/v0";
     require_version := fun _ => true;
     register_dataset := fun dm name _ train val => Ok (<[name := (train, val)]> dm);
     TemplateType_chatml := "chatml" |}.

Definition sample_models : list (string * ModelInfo) :=
  [("qwen-7b-chat",
    {| mi_model_id_or_path := "qwen/Qwen-7B-Chat"; mi_revision := VStr "v1.1.7";
       mi_requires := []; mi_torch_dtype := Some bfloat16;
       mi_support_flash_attn := Some (VBool true) |});
   ("qwen-7b-chat-int4",
    {| mi_model_id_or_path := "qwen/Qwen-7B-Chat-Int4"; mi_revision := VStr "v1.1.3";
       mi_requires := ["auto_gptq>=0.4.2"]; mi_torch_dtype := Some float16;
       mi_support_flash_attn := Some (VBool true) |})].

Definition sample_runtime : Runtime :=
  {| MODEL_MAPPING := sample_models;
     DATASET_MAPPING := ∅;
     cuda_device := None;
     process_group := None;
     log := [] |}.

Definition sample_infer_args : Obj :=
  new_instance InferArguments
    [("ckpt_dir", VStr "~/runs/v0/checkpoint-100");
     ("dataset", VList [VStr "alpaca-en,alpaca-zh"]);
     ("template_type", VStr "qwen");
     ("show_dataset_sample", VInt 5)].

Definition full_fp16_args : Obj :=
  new_instance SftArguments
    [("model_type", VStr "qwen-7b-chat"); ("dtype", VStr "fp16");
     ("sft_type", VStr "full")].

Definition full_int4_args : Obj :=
  new_instance SftArguments
    [("model_type", VStr "qwen-7b-chat-int4"); ("sft_type", VStr "full")].

(** The same pre-quantized model, named by its path. *)
Definition full_int4_by_path_args : Obj :=
  new_instance SftArguments
    [("model_id_or_path", VStr "qwen/Qwen-7B-Chat-Int4"); ("sft_type", VStr "full")].

(** The same world on an accelerator without bfloat16, and without
    bitsandbytes installed. *)
Definition legacy_env : Env :=
  {| expanduser := expanduser sample_env;
     abspath := abspath sample_env;
     path_exists := path_exists sample_env;
     json_load := json_load sample_env;
     is_bf16_supported := false;
     is_master := is_master sample_env;
     is_dist := is_dist sample_env;
     get_dist_setting := get_dist_setting sample_env;
     broadcast_string := broadcast_string sample_env;
     float_add_int := float_add_int sample_env;
     add_version_to_work_dir := add_version_to_work_dir sample_env;
     require_version := fun r => negb (String.eqb r "bitsandbytes");
     register_dataset := register_dataset sample_env;
     TemplateType_chatml := TemplateType_chatml sample_env |}.

(** * Properties *)

(** ** Slices *)

Lemma len_nonneg {A} (l : list A) : 0 <= len l.
Proof. unfold len. lia. Qed.

Lemma len_drop {A} (l : list A) (n : nat) : len (drop n l) = Z.max 0 (len l - Z.of_nat n).
Proof. unfold len. rewrite length_drop. lia. Qed.

Lemma py_slice_from {A} (l : list A) (i : Z) :
  0 <= i <= len l -> py_slice l (Some i) None = drop (Z.to_nat i) l.
Proof.
  intros Hi. unfold py_slice, adjust_index.
  destruct (Z.ltb_spec i 0); [lia|].
  rewrite Z.min_l by lia.
  apply take_ge. rewrite length_drop. unfold len in *. lia.
Qed.

Lemma py_slice_upto {A} (l : list A) (j : Z) :
  0 <= j <= len l -> py_slice l None (Some j) = take (Z.to_nat j) l.
Proof.
  intros Hj. unfold py_slice, adjust_index.
  destruct (Z.ltb_spec j 0); [lia|].
  rewrite Z.min_l by lia. rewrite Z.sub_0_r. reflexivity.
Qed.

Lemma py_slice_last {A} (l : list A) (k : Z) :
  1 <= k -> py_slice l (Some (- k)) None = drop (Z.to_nat (len l - k)) l.
Proof.
  intros Hk. unfold py_slice, adjust_index.
  destruct (Z.ltb_spec (- k) 0); [|lia].
  replace (Z.to_nat (Z.max 0 (- k + len l))) with (Z.to_nat (len l - k)) by lia.
  apply take_ge. rewrite length_drop. unfold len in *. lia.
Qed.

Lemma len_suffix (k : Z) (h : History) : 0 <= k <= len h -> len (suffix k h) = k.
Proof. intros Hk. unfold suffix. rewrite len_drop. lia. Qed.

Lemma suffix_suffix (j k : Z) (h : History) :
  0 <= j -> j <= k -> k <= len h -> suffix j (suffix k h) = suffix j h.
Proof.
  intros Hj Hjk Hk. unfold suffix at 1. rewrite (len_suffix k h) by lia.
  unfold suffix. rewrite drop_drop. f_equal. lia.
Qed.

Lemma suffix_all (h : History) : suffix (len h) h = h.
Proof. unfold suffix. rewrite Z.sub_diag. reflexivity. Qed.

(** ** Binary search *)

Lemma bind_Ok {A B} (a : A) (f : A -> Result B) : (x ← Ok a; f x) = f a.
Proof. reflexivity. Qed.

Lemma upper_midpoint (lo hi : Z) :
  lo < hi -> lo < Z.shiftr (lo + hi + 1) 1 <= hi.
Proof.
  intros H. rewrite Z.shiftr_div_pow2 by lia. change (2 ^ 1) with 2.
  pose proof (Z.div_mod (lo + hi + 1) 2 ltac:(lia)).
  pose proof (Z.mod_pos_bound (lo + hi + 1) 2 ltac:(lia)). lia.
Qed.

(** The loop ends within [hi - lo] iterations on a value that is either
    the lower end or feasible, and whose successor is either beyond the
    upper end or infeasible.  The predicate is only asked strictly above
    [lo]. *)
Lemma upper_bound_loop_spec (p : Z -> bool) (cond : Z -> Result bool) (fuel : nat) :
  forall lo hi,
    (forall m, lo < m <= hi -> cond m = Ok (p m)) ->
    lo <= hi -> hi - lo <= Z.of_nat fuel ->
    exists k, upper_bound_loop fuel lo hi cond = Ok k /\ lo <= k <= hi
              /\ (k = lo \/ p k = true) /\ (k = hi \/ p (k + 1) = false).
Proof.
  induction fuel as [|fuel IH]; intros lo hi Hc Hle Hf; simpl.
  - destruct (Z.gtb_spec hi lo); [lia|]. exists lo. repeat split; auto; lia.
  - destruct (Z.gtb_spec hi lo) as [Hlt|Hge].
    + pose proof (upper_midpoint lo hi ltac:(lia)) as Hmid.
      set (mid := Z.shiftr (lo + hi + 1) 1) in *.
      rewrite Hc by lia. rewrite bind_Ok.
      destruct (p mid) eqn:Hp.
      * destruct (IH mid hi) as (k & Hk & Hr & Hlo & Hhi); [intros; apply Hc; lia|lia|lia|].
        exists k. repeat split; auto; try lia.
        right. destruct Hlo; subst; auto.
      * destruct (IH lo (mid - 1)) as (k & Hk & Hr & Hlo & Hhi); [intros; apply Hc; lia|lia|lia|].
        exists k. repeat split; auto; try lia.
        right. destruct Hhi as [->|]; auto. replace (mid - 1 + 1) with mid by lia. auto.
    + exists lo. repeat split; auto; lia.
Qed.

Lemma upper_bound_spec (p : Z -> bool) (cond : Z -> Result bool) (lo hi : Z) :
  (forall m, lo < m <= hi -> cond m = Ok (p m)) -> lo <= hi ->
  exists k, upper_bound lo hi cond = Ok k /\ lo <= k <= hi
            /\ (k = lo \/ p k = true) /\ (k = hi \/ p (k + 1) = false).
Proof. intros. apply upper_bound_loop_spec; auto; lia. Qed.

Section LimitHistoryFacts.
Variable template : Template.
Variable query : string.

Lemma compute_token_length_suffix (history : History) (k : Z) :
  1 <= k ->
  compute_token_length template query history k = Ok (token_length template query (suffix k history)).
Proof.
  intros Hk. unfold compute_token_length.
  destruct (Z.eqb_spec k 0); [lia|].
  rewrite py_slice_last by lia. reflexivity.
Qed.

(** What the search returns, with no assumption on the encoder. *)
Lemma limit_history_length_spec (history : History) (max_length : Z) :
  exists k, 0 <= k <= len history
    /\ limit_history_length template query (Some history) max_length
       = Ok (take (Z.to_nat (len history - k)) history, suffix k history)
    /\ (k = 0 \/ token_length template query (suffix k history) <= max_length)
    /\ (k = len history \/ max_length < token_length template query (suffix (k + 1) history)).
Proof.
  pose proof (len_nonneg history) as Hn.
  destruct (upper_bound_spec
              (fun m => token_length template query (suffix m history) <=? max_length)
              (fun mid => n ← compute_token_length template query history mid;
                          mret (n <=? max_length))
              0 (len history)) as (k & Hk & Hr & Hlo & Hhi); [|lia|].
  { intros m Hm. rewrite compute_token_length_suffix by lia. reflexivity. }
  exists k. split; [lia|]. split.
  - unfold limit_history_length. rewrite Hk, bind_Ok.
    rewrite py_slice_upto, py_slice_from by lia. reflexivity.
  - split.
    + destruct Hlo as [->|Hp]; [left; reflexivity|right]. apply Z.leb_le, Hp.
    + destruct Hhi as [->|Hp]; [left; reflexivity|right]. apply Z.leb_gt, Hp.
Qed.

Lemma limit_history_length_None (max_length : Z) :
  limit_history_length template query None max_length = Ok ([], []).
Proof. reflexivity. Qed.

(** C1 (amended).  Under monotone encoding [limit_history_length]
    returns the history split into a discarded prefix and a kept suffix
    of some length [k]; the kept suffix fits the limit unless it is empty
    (the empty suffix is returned without being encoded), and every
    longer suffix exceeds the limit, the one of length [k + 1] in
    particular, so [k] is the greatest feasible length above zero. *)
Theorem limit_history_length_maximal (history : History) (max_length : Z) :
  encoding_monotone template query history ->
  exists old_history kept k,
    limit_history_length template query (Some history) max_length
    = Ok (old_history, kept)
    /\ old_history ++ kept = history
    /\ kept = suffix k history /\ len kept = k
    /\ (k = 0 \/ token_length template query kept <= max_length)
    /\ (k = len history
        \/ max_length < token_length template query (suffix (k + 1) history))
    /\ (forall j, k < j <= len history ->
                  max_length < token_length template query (suffix j history)).
Proof.
  intros Hmono.
  destruct (limit_history_length_spec history max_length)
    as (k & Hk & Heq & Hlo & Hhi).
  exists (take (Z.to_nat (len history - k)) history), (suffix k history), k.
  split; [exact Heq|]. split; [apply take_drop|]. split; [reflexivity|].
  split; [apply len_suffix; lia|]. split; [exact Hlo|]. split; [exact Hhi|].
  intros j Hj. destruct Hhi as [->|Hgt]; [lia|].
  eapply Z.lt_le_trans; [exact Hgt|]. apply Hmono; lia.
Qed.

(** C7.  Truncating the kept suffix again, with the same query and
    limit, keeps all of it and discards nothing. *)
Theorem limit_history_length_idempotent
    (history old_history kept : History) (max_length : Z) :
  encoding_monotone template query history ->
  limit_history_length template query (Some history) max_length
  = Ok (old_history, kept) ->
  limit_history_length template query (Some kept) max_length = Ok ([], kept).
Proof.
  intros Hmono Hrun.
  destruct (limit_history_length_spec history max_length)
    as (k & Hk & Heq & Hlo & _).
  rewrite Heq in Hrun. injection Hrun as _ Hkept. subst kept.
  destruct (limit_history_length_spec (suffix k history) max_length)
    as (k' & Hk' & Heq' & _ & Hhi').
  rewrite (len_suffix k history) in * by lia.
  rewrite Heq'. destruct (Z.eq_dec k' k) as [->|Hne].
  - rewrite Z.sub_diag. simpl. f_equal. f_equal.
    rewrite <- (len_suffix k history) at 1 by lia. apply suffix_all.
  - exfalso. destruct Hhi' as [->|Hgt]; [lia|].
    rewrite suffix_suffix in Hgt by lia.
    destruct Hlo as [->|Hfit]; [lia|].
    pose proof (Hmono (k' + 1) k ltac:(lia) ltac:(lia) ltac:(lia)). lia.
Qed.
End LimitHistoryFacts.

Lemma linear_template_monotone (query : string) (history : History) :
  encoding_monotone linear_template query history.
Proof.
  intros i j Hi Hij Hj. unfold token_length, linear_template, suffix, len. simpl.
  rewrite !length_replicate, !length_drop. unfold len in *. lia.
Qed.

(** C1 as stated fails: with a limit of 3 tokens no suffix fits, not even
    the empty one, which takes 5; the empty suffix is returned all the
    same, and its encoding exceeds the limit.  The encoding is monotone,
    the empty suffix included. *)
Lemma limit_history_length_over_limit :
  encoding_monotone linear_template "q" [("q1", "r1")]
  /\ token_length linear_template "q" []
     <= token_length linear_template "q" [("q1", "r1")]
  /\ limit_history_length linear_template "q" (Some [("q1", "r1")]) 3
     = Ok ([("q1", "r1")], [])
  /\ token_length linear_template "q" [] = 5
  /\ ~ token_length linear_template "q" [] <= 3.
Proof.
  split; [apply linear_template_monotone|].
  split; [change (5 <= 8); lia|]. split; [reflexivity|].
  split; [reflexivity|]. change (~ 5 <= 3). lia.
Qed.

Lemma limit_history_length_maximal_witness :
  exists old_history kept k,
    limit_history_length linear_template "q" (Some three_turns) 12
    = Ok (old_history, kept)
    /\ old_history ++ kept = three_turns
    /\ kept = suffix k three_turns /\ len kept = k
    /\ (k = 0 \/ token_length linear_template "q" kept <= 12)
    /\ (k = len three_turns
        \/ 12 < token_length linear_template "q" (suffix (k + 1) three_turns))
    /\ (forall j, k < j <= len three_turns ->
                  12 < token_length linear_template "q" (suffix j three_turns)).
Proof.
  apply (limit_history_length_maximal linear_template "q" three_turns 12).
  apply linear_template_monotone.
Defined.

Lemma limit_history_length_idempotent_witness :
  limit_history_length linear_template "q"
    (Some [("q2", "r2"); ("q3", "r3")]) 12
  = Ok ([], [("q2", "r2"); ("q3", "r3")]).
Proof.
  apply (limit_history_length_idempotent linear_template "q" three_turns
           [("q1", "r1")] [("q2", "r2"); ("q3", "r3")] 12).
  - apply linear_template_monotone.
  - reflexivity.
Defined.

(** ** Label runs *)

Lemma label_runs_head (x : Z) (l : list Z) :
  exists r rs, label_runs (x :: l) = (x :: r) :: rs.
Proof.
  simpl. destruct (label_runs l) as [|[|y r] rs]; eauto.
  destruct (Bool.eqb (masked x) (masked y)); eauto.
Qed.

(** A uniform block followed by nothing, or by an id of the other kind, is
    a run of its own. *)
Lemma label_runs_app_uniform (b : bool) (run rest : list Z) :
  run <> [] -> Forall (fun x => masked x = b) run ->
  match rest with [] => True | y :: _ => masked y <> b end ->
  label_runs (run ++ rest) = run :: label_runs rest.
Proof.
  induction run as [|a run IH]; intros Hne Hall Hrest; [congruence|].
  apply Forall_cons in Hall as [Ha Hall].
  destruct run as [|a' run'].
  - simpl. destruct rest as [|y rest']; [reflexivity|].
    destruct (label_runs_head y rest') as (r & rs & Hr).
    rewrite Hr. destruct (Bool.eqb_spec (masked a) (masked y)); congruence.
  - change ((a :: a' :: run') ++ rest) with (a :: ((a' :: run') ++ rest)).
    cbn [label_runs]. rewrite IH by (auto; congruence).
    apply Forall_cons in Hall as [Ha' _].
    destruct (Bool.eqb_spec (masked a) (masked a')); congruence.
Qed.

Lemma label_runs_single (b : bool) (run : list Z) :
  run <> [] -> Forall (fun x => masked x = b) run -> label_runs run = [run].
Proof.
  intros Hne Hall. rewrite <- (app_nil_r run) at 1.
  apply (label_runs_app_uniform b run []); auto.
Qed.

Lemma label_runs_concat (l : list Z) : concat (label_runs l) = l.
Proof.
  induction l as [|x l IH]; [reflexivity|].
  destruct l as [|y l]; [reflexivity|].
  destruct (label_runs_head y l) as (r & rs & Hr).
  cbn [label_runs] in *. rewrite Hr in *.
  destruct (Bool.eqb (masked x) (masked y)); simpl in *; congruence.
Qed.

Lemma label_runs_uniform (l : list Z) : Forall uniform_run (label_runs l).
Proof.
  induction l as [|x l IH]; [constructor|]. simpl.
  destruct (label_runs l) as [|[|y r] rs].
  - repeat constructor; [congruence|]. exists (masked x). repeat constructor.
  - repeat constructor; [congruence|]. exists (masked x). repeat constructor.
  - apply Forall_cons in IH as [[_ [b Hb]] IH].
    destruct (Bool.eqb_spec (masked x) (masked y)) as [Heq|Hne].
    + constructor; [|exact IH]. split; [congruence|]. exists b.
      constructor; [|exact Hb]. apply Forall_cons in Hb as [Hy _]. congruence.
    + constructor; [|constructor; [|exact IH]].
      * split; [congruence|]. exists (masked x). repeat constructor.
      * split; [congruence|]. exists b. exact Hb.
Qed.

Lemma label_runs_alternating (l : list Z) : alternating (label_runs l).
Proof.
  induction l as [|x l IH]; [constructor|]. simpl.
  destruct (label_runs l) as [|[|y r] rs].
  - constructor.
  - constructor.
  - destruct (Bool.eqb_spec (masked x) (masked y)) as [Heq|Hne].
    + inversion IH; subst; [constructor|].
      econstructor; eauto. simpl in *. congruence.
    + econstructor; eauto; reflexivity.
Qed.

(** ** The loop of [_get_labels_str] *)

Lemma string_app_nil_r (s : string) : s +:+ "" = s.
Proof.
  induction s as [|c s IH]; [reflexivity|].
  change (String c (s +:+ "") = String c s). rewrite IH. reflexivity.
Qed.

Lemma string_app_assoc (s1 s2 s3 : string) : (s1 +:+ s2) +:+ s3 = s1 +:+ s2 +:+ s3.
Proof.
  induction s1 as [|c s1 IH]; [reflexivity|].
  change (String c ((s1 +:+ s2) +:+ s3) = String c (s1 +:+ s2 +:+ s3)).
  rewrite IH. reflexivity.
Qed.

Lemma py_index_lookup {A} (l : list A) (i : Z) (x : A) :
  0 <= i -> l !! Z.to_nat i = Some x -> py_index l i = Ok x.
Proof.
  intros Hi Hx. unfold py_index.
  pose proof (lookup_lt_Some _ _ _ Hx) as Hlt.
  assert ((i <? 0) = false) as Hi0 by (apply Z.ltb_ge; lia).
  assert ((len l <=? i) = false) as Hin by (apply Z.leb_gt; unfold len; lia).
  cbv zeta. rewrite Hi0. cbv iota. rewrite Hi0, Hin. simpl. rewrite Hx. reflexivity.
Qed.

Lemma py_index_last {A} (l : list A) (x : A) :
  last l = Some x -> py_index l (-1) = Ok x.
Proof.
  intros Hx. rewrite last_lookup in Hx.
  pose proof (lookup_lt_Some _ _ _ Hx) as Hlt.
  unfold py_index.
  assert ((-1 + len l <? 0) = false) as Hi0 by (apply Z.ltb_ge; unfold len; lia).
  assert ((len l <=? -1 + len l) = false) as Hin by (apply Z.leb_gt; lia).
  change (-1 <? 0) with true. cbv iota zeta. rewrite Hi0, Hin.
  simpl. replace (Z.to_nat (-1 + len l)) with (pred (length l)) by (unfold len; lia).
  rewrite Hx. reflexivity.
Qed.

Lemma py_slice_between {A} (l : list A) (a b : Z) :
  0 <= a -> a <= b -> b <= len l ->
  py_slice l (Some a) (Some b) = take (Z.to_nat (b - a)) (drop (Z.to_nat a) l).
Proof.
  intros Ha Hab Hb. unfold py_slice, adjust_index.
  destruct (Z.ltb_spec a 0); [lia|]. destruct (Z.ltb_spec b 0); [lia|].
  rewrite !Z.min_l by lia. reflexivity.
Qed.

Lemma len_app {A} (l1 l2 : list A) : len (l1 ++ l2) = len l1 + len l2.
Proof. unfold len. rewrite length_app. lia. Qed.

Section LabelsStrFacts.
Variable tokenizer : Tokenizer.

Lemma render_run_uniform (run : list Z) (prev : Z) :
  run <> [] -> Forall (fun x => masked x = masked prev) run ->
  render_run tokenizer run
  = if masked prev then marker (len run) else decode tokenizer run.
Proof.
  intros Hne Hall. destruct run as [|x run]; [congruence|].
  apply Forall_cons in Hall as [Hx _]. simpl. rewrite Hx. reflexivity.
Qed.

(** An iteration past the first, by the kinds of the current and the
    previous id. *)
Lemma _get_labels_str_body_step (labels : list Z) (i x prev : Z) (st : LabelsLocals) :
  1 <= i -> labels !! Z.to_nat i = Some x -> labels !! Z.to_nat (i - 1) = Some prev ->
  _get_labels_str_body tokenizer labels i st
  = if masked x && negb (masked prev) then
      e ← read_local "e" (var_e st);
      mret {| var_s := Some i; var_e := var_e st;
              labels_str := labels_str st
                            +:+ decode tokenizer (py_slice labels (Some e) (Some i)) |}
    else if negb (masked x) && masked prev then
      s ← read_local "s" (var_s st);
      mret {| var_s := var_s st; var_e := Some i;
              labels_str := labels_str st +:+ marker (i - s) |}
    else mret st.
Proof.
  intros Hi Hx Hprev. unfold _get_labels_str_body.
  destruct (Z.eqb_spec i 0); [lia|].
  rewrite (py_index_lookup labels i x), (py_index_lookup labels (i - 1) prev) by (auto; lia).
  unfold py_and, masked. rewrite !bind_Ok.
  destruct (x =? -100), (prev =? -100); simpl; try reflexivity.
  destruct (read_local "e" (var_e st)); reflexivity.
Qed.

(** The loop, entered with the current run [run] that follows [before]
    and the state that records where the run started, leaves the state
    at the last run of the sequence with every earlier run rendered. *)
Lemma _get_labels_str_loop (labels : list Z) :
  forall rest before run prev st,
    labels = before ++ run ++ rest ->
    last run = Some prev ->
    Forall (fun x => masked x = masked prev) run ->
    (if masked prev then var_s st = Some (len before)
     else var_e st = Some (len before)) ->
    exists st' before' run' prev',
      for_each (seqZ (len (before ++ run)) (len rest))
        (_get_labels_str_body tokenizer labels) st = Ok st'
      /\ labels = before' ++ run'
      /\ last run' = Some prev'
      /\ Forall (fun x => masked x = masked prev') run'
      /\ (if masked prev' then var_s st' = Some (len before')
          else var_e st' = Some (len before'))
      /\ labels_str st' +:+ render_run tokenizer run'
         = labels_str st +:+ foldr String.append "" (render_run tokenizer <$> label_runs (run ++ rest)).
Proof.
  induction rest as [|x rest IH]; intros before run prev st Hl Hlast Hall Hst.
  - exists st, before, run, prev. simpl. rewrite app_nil_r in *.
    assert (run <> []) as Hne by (intros ->; discriminate).
    rewrite (label_runs_single (masked prev) run) by auto.
    simpl. rewrite string_app_nil_r. repeat split; assumption.
  - assert (run <> []) as Hne by (intros ->; discriminate).
    pose proof (len_nonneg before). pose proof (len_nonneg rest).
    pose proof (len_nonneg (x :: rest)).
    assert (1 <= len run) by (destruct run; [congruence|unfold len; simpl; lia]).
    rewrite seqZ_cons by (unfold len; simpl; lia).
    cbn [for_each].
    assert (1 <= length run)%nat as Hrun1 by (unfold len in *; lia).
    assert (labels !! Z.to_nat (len (before ++ run)) = Some x) as Hx.
    { replace (Z.to_nat (len (before ++ run))) with (length before + length run)%nat
        by (unfold len; rewrite length_app; lia).
      rewrite Hl, lookup_app_r by lia.
      rewrite lookup_app_r by lia.
      replace (length before + length run - length before - length run)%nat with 0%nat by lia.
      reflexivity. }
    assert (labels !! Z.to_nat (len (before ++ run) - 1) = Some prev) as Hprev.
    { replace (Z.to_nat (len (before ++ run) - 1))
        with (length before + pred (length run))%nat
        by (unfold len; rewrite length_app; lia).
      rewrite Hl, lookup_app_r by lia.
      rewrite lookup_app_l by lia.
      rewrite last_lookup in Hlast. rewrite <- Hlast. f_equal. lia. }
    rewrite (_get_labels_str_body_step labels _ x prev) by (auto; rewrite len_app; lia).
    replace (Z.pred (len (x :: rest))) with (len rest) by (unfold len; simpl; lia).
    destruct (masked x) eqn:Hmx, (masked prev) eqn:Hmp; simpl.
    + (* masked, masked *)
      replace (Z.succ (len (before ++ run))) with (len (before ++ (run ++ [x])))
        by (rewrite !len_app; unfold len; simpl; lia).
      destruct (IH before (run ++ [x]) x st) as (st' & b' & r' & p' & Hrun & Hrest).
      { rewrite <- app_assoc. exact Hl. }
      { apply last_snoc. }
      { rewrite Hmx. apply Forall_app. split; [exact Hall|]. repeat constructor. exact Hmx. }
      { rewrite Hmx. exact Hst. }
      exists st', b', r', p'. rewrite <- app_assoc in Hrest. simpl in Hrest.
      split; [exact Hrun|exact Hrest].
    + (* masked after non-masked: the non-masked run is decoded *)
      rewrite Hst. cbn [read_local]. rewrite bind_Ok.
      unfold mret at 1, Result_ret. rewrite bind_Ok.
      rewrite py_slice_between by (rewrite ?len_app, ?Hl, ?len_app; lia).
      replace (Z.to_nat (len (before ++ run) - len before)) with (length run)
        by (rewrite len_app; unfold len; lia).
      replace (drop (Z.to_nat (len before)) labels) with (run ++ x :: rest)
        by (rewrite Hl; unfold len; rewrite Nat2Z.id, drop_app_length; reflexivity).
      rewrite take_app_length.
      replace (Z.succ (len (before ++ run))) with (len ((before ++ run) ++ [x]))
        by (rewrite !len_app; unfold len; simpl; lia).
      match goal with |- context [for_each _ _ ?s] => set (st1 := s) end.
      destruct (IH (before ++ run) [x] x st1) as (st' & b' & r' & p' & Hrun & Hb & Hl' & Hall' & Hst' & Hstr).
      { rewrite <- app_assoc. exact Hl. }
      { reflexivity. }
      { repeat constructor. }
      { rewrite Hmx. reflexivity. }
      exists st', b', r', p'.
      split; [exact Hrun|]. repeat (split; [assumption|]).
      rewrite Hstr. subst st1. simpl labels_str.
      rewrite (label_runs_app_uniform false run (x :: rest)) by (auto; rewrite Hmx; auto).
      change ([x] ++ rest) with (x :: rest). cbn [fmap list_fmap foldr].
      rewrite (render_run_uniform run prev) by (auto; rewrite Hmp; exact Hall).
      rewrite Hmp.
      rewrite string_app_assoc. reflexivity.
    + (* non-masked after masked: the masked run becomes a marker *)
      rewrite Hst. cbn [read_local]. rewrite bind_Ok.
      unfold mret at 1, Result_ret. rewrite bind_Ok.
      replace (len (before ++ run) - len before) with (len run) by (rewrite len_app; lia).
      replace (Z.succ (len (before ++ run))) with (len ((before ++ run) ++ [x]))
        by (rewrite !len_app; unfold len; simpl; lia).
      match goal with |- context [for_each _ _ ?s] => set (st1 := s) end.
      destruct (IH (before ++ run) [x] x st1) as (st' & b' & r' & p' & Hrun & Hb & Hl' & Hall' & Hst' & Hstr).
      { rewrite <- app_assoc. exact Hl. }
      { reflexivity. }
      { repeat constructor. }
      { rewrite Hmx. reflexivity. }
      exists st', b', r', p'.
      split; [exact Hrun|]. repeat (split; [assumption|]).
      rewrite Hstr. subst st1. simpl labels_str.
      rewrite (label_runs_app_uniform true run (x :: rest)) by (auto; rewrite Hmx; auto).
      change ([x] ++ rest) with (x :: rest). cbn [fmap list_fmap foldr].
      rewrite (render_run_uniform run prev) by (auto; rewrite Hmp; exact Hall).
      rewrite Hmp.
      rewrite string_app_assoc. reflexivity.
    + (* non-masked, non-masked *)
      replace (Z.succ (len (before ++ run))) with (len (before ++ (run ++ [x])))
        by (rewrite !len_app; unfold len; simpl; lia).
      destruct (IH before (run ++ [x]) x st) as (st' & b' & r' & p' & Hrun & Hrest).
      { rewrite <- app_assoc. exact Hl. }
      { apply last_snoc. }
      { rewrite Hmx. apply Forall_app. split; [exact Hall|]. repeat constructor. exact Hmx. }
      { rewrite Hmx. exact Hst. }
      exists st', b', r', p'. rewrite <- app_assoc in Hrest. simpl in Hrest.
      split; [exact Hrun|exact Hrest].
Qed.

Lemma _get_labels_str_rendering (labels : list Z) :
  _get_labels_str tokenizer labels = Ok (run_length_rendering tokenizer labels).
Proof.
  destruct labels as [|x rest]; [reflexivity|].
  unfold _get_labels_str, py_range.
  pose proof (len_nonneg rest) as Hrest.
  assert (len (x :: rest) = len rest + 1) as Hlen by (unfold len; simpl; lia).
  destruct (Z.eqb_spec (len (x :: rest)) 0) as [|_]; [lia|].
  rewrite seqZ_cons by lia. cbn [for_each].
  replace (Z.pred (len (x :: rest))) with (len rest) by lia.
  change (Z.succ 0) with (len ([] ++ [x])).
  assert (_get_labels_str_body tokenizer (x :: rest) 0
            {| var_s := None; var_e := None; labels_str := "" |}
          = Ok (if masked x
                then {| var_s := Some 0; var_e := None; labels_str := "" |}
                else {| var_s := None; var_e := Some 0; labels_str := "" |})) as ->.
  { unfold _get_labels_str_body, masked. simpl. destruct (x =? -100); reflexivity. }
  rewrite bind_Ok.
  match goal with |- context [for_each _ _ ?s] => set (st0 := s) end.
  destruct (_get_labels_str_loop (x :: rest) rest [] [x] x st0)
    as (st' & before & run & prev & -> & Hl & Hlast & Hall & Hst & Hstr).
  { reflexivity. }
  { reflexivity. }
  { repeat constructor. }
  { subst st0. destruct (masked x); reflexivity. }
  rewrite bind_Ok.
  assert (run <> []) as Hne by (intros ->; discriminate).
  rewrite (py_index_last (x :: rest) prev)
    by (rewrite Hl, last_app, Hlast; reflexivity).
  rewrite bind_Ok. f_equal.
  assert (labels_str st0 = "") as Hst0 by (subst st0; destruct (masked x); reflexivity).
  rewrite Hst0 in Hstr. change ("" +:+ ?s) with s in Hstr.
  change ([x] ++ rest) with (x :: rest) in Hstr.
  unfold run_length_rendering. rewrite <- Hstr.
  rewrite (render_run_uniform run prev) by auto.
  pose proof (len_nonneg before) as Hb. pose proof (len_nonneg run) as Hr.
  change (prev =? -100) with (masked prev).
  destruct (masked prev).
  - rewrite Hst. cbn [read_local]. rewrite bind_Ok.
    replace (len (x :: rest) - len before) with (len run)
      by (rewrite Hl, len_app; lia).
    reflexivity.
  - rewrite Hst. cbn [read_local]. rewrite bind_Ok.
    rewrite py_slice_from by (rewrite Hl, len_app; lia).
    rewrite Hl. unfold len. rewrite Nat2Z.id, drop_app_length. reflexivity.
Qed.

(** A sequence without masked ids is decoded as a whole, with no
    marker. *)
Lemma _get_labels_str_no_mask (labels : list Z) :
  labels <> [] -> Forall (fun x => x <> -100) labels ->
  _get_labels_str tokenizer labels = Ok (decode tokenizer labels).
Proof.
  intros Hne Hall. rewrite _get_labels_str_rendering. unfold run_length_rendering.
  rewrite (label_runs_single false labels); auto.
  - simpl. rewrite string_app_nil_r. destruct labels as [|x l]; [congruence|].
    apply Forall_cons in Hall as [Hx _]. simpl. unfold masked.
    destruct (Z.eqb_spec x (-100)); [congruence|reflexivity].
  - eapply Forall_impl; [exact Hall|]. intros x Hx. unfold masked.
    destruct (Z.eqb_spec x (-100)); [congruence|reflexivity].
Qed.

(** C6.  [_get_labels_str] never fails and returns the rendering of the
    maximal runs of the label sequence, in order: a [[-100 * N]] marker
    for a masked run of length [N], the decoded text for a non-masked
    run.  The runs concatenate back to the sequence, each is a non-empty
    block of ids of one kind, and adjacent runs are of different kinds,
    so the runs at both ends are rendered too.  An all-masked sequence
    of length [N > 0] gives the single marker and the empty sequence
    gives the empty string. *)
Theorem get_labels_str_renders_runs (labels : list Z) :
  _get_labels_str tokenizer labels = Ok (run_length_rendering tokenizer labels)
  /\ concat (label_runs labels) = labels
  /\ Forall uniform_run (label_runs labels)
  /\ alternating (label_runs labels)
  /\ (forall n : nat,
        _get_labels_str tokenizer (replicate (S n) (-100))
        = Ok (marker (Z.of_nat (S n))))
  /\ _get_labels_str tokenizer [] = Ok "".
Proof.
  split; [apply _get_labels_str_rendering|].
  split; [apply label_runs_concat|].
  split; [apply label_runs_uniform|].
  split; [apply label_runs_alternating|].
  split; [|reflexivity].
  intros n. rewrite _get_labels_str_rendering. unfold run_length_rendering.
  rewrite (label_runs_single true (replicate (S n) (-100))).
  - simpl. rewrite string_app_nil_r. unfold len. simpl.
    rewrite length_replicate. reflexivity.
  - discriminate.
  - apply Forall_forall. intros x Hx. apply elem_of_replicate in Hx as [-> _].
    reflexivity.
Qed.
End LabelsStrFacts.

Example _get_labels_str_test_vector :
  _get_labels_str bracket_tokenizer
    [-100; -100; 1000; 2000; 3000; -100; -100; 4000; 5000; 6000]
  = Ok "[-100 * 2]<1000><2000><3000>[-100 * 2]<4000><5000><6000>".
Proof. reflexivity. Qed.

Example _get_labels_str_leading_single_mask :
  _get_labels_str bracket_tokenizer [-100; 5; 6] = Ok "[-100 * 1]<5><6>".
Proof. reflexivity. Qed.

(** ** Model identity and quantization flags *)

(** C5.  With both a model type and a model path or id given,
    [set_model_type] stops at its first statement, the assertion that one
    of the two is [None]. *)
Theorem set_model_type_rejects_both
    (env : Env) (args : Obj) (rt : Runtime) (model_type model_id_or_path : PyVal) :
  obj_dict args !! "model_type" = Some model_type ->
  is_none model_type = false ->
  obj_dict args !! "model_id_or_path" = Some model_id_or_path ->
  is_none model_id_or_path = false ->
  set_model_type env args rt = Err (AssertionError []).
Proof.
  intros Ht Nt Hp Np. unfold set_model_type, py_or, getattr.
  rewrite Ht, Hp. simpl. rewrite Nt, Np. reflexivity.
Qed.

Lemma set_model_type_rejects_both_witness :
  set_model_type sample_env
    (new_instance SftArguments
       [("model_type", VStr "qwen-7b-chat");
        ("model_id_or_path", VStr "qwen/Qwen-7B-Chat")])
    sample_runtime
  = Err (AssertionError []).
Proof.
  apply (set_model_type_rejects_both sample_env _ sample_runtime
           (VStr "qwen-7b-chat") (VStr "qwen/Qwen-7B-Chat")); reflexivity.
Defined.

(** C2 as stated fails: a bit width of 3 is not refused; the flags come
    out both false, as for 0. *)
Lemma select_bnb_accepts_3 :
  select_bnb sample_env
    (new_instance SftArguments [("quantization_bit", VInt 3); ("dtype", VStr "bf16")])
  = Ok ((bfloat16, false, false),
        setattr
          (new_instance SftArguments [("quantization_bit", VInt 3); ("dtype", VStr "bf16")])
          "bnb_4bit_comp_dtype" (VStr "bf16")).
Proof. vm_compute. reflexivity. Qed.

(** C2 (amended).  A bit width outside {0, 4, 8} is not checked by
    [select_bnb]: with a compute precision that resolves, the call
    returns that precision and both flags false. *)
Theorem select_bnb_other_widths
    (env : Env) (args : Obj) (q : Z) (comp dtype : string) (d : Dtype) :
  obj_dict args !! "quantization_bit" = Some (VInt q) ->
  q <> 0 -> q <> 4 -> q <> 8 ->
  obj_dict args !! "bnb_4bit_comp_dtype" = Some (VStr comp) ->
  obj_dict args !! "dtype" = Some (VStr dtype) ->
  dtype_mapping_reversed !! (if String.eqb comp "AUTO" then dtype else comp) = Some d ->
  select_bnb env args
  = Ok ((d, false, false),
        if String.eqb comp "AUTO"
        then setattr args "bnb_4bit_comp_dtype" (VStr dtype) else args).
Proof.
  intros Hq H0 H4 H8 Hc Hd Hm. unfold select_bnb, getattr.
  rewrite Hc. simpl. destruct (String.eqb comp "AUTO") eqn:Hauto.
  - rewrite Hd. simpl.
    rewrite (lookup_insert_ne _ "bnb_4bit_comp_dtype" "quantization_bit") by done.
    rewrite Hq. simpl. rewrite lookup_insert_eq. simpl.
    unfold dict_getitem. rewrite Hm. simpl.
    destruct (Z.eqb_spec q 4); [lia|]. destruct (Z.eqb_spec q 8); [lia|]. reflexivity.
  - simpl. rewrite Hq. simpl. rewrite Hc. simpl.
    unfold dict_getitem. rewrite Hm. simpl.
    destruct (Z.eqb_spec q 4); [lia|]. destruct (Z.eqb_spec q 8); [lia|]. reflexivity.
Qed.

Lemma select_bnb_other_widths_witness :
  select_bnb sample_env
    (new_instance InferArguments [("quantization_bit", VInt 16); ("dtype", VStr "fp16")])
  = Ok ((float16, false, false),
        setattr
          (new_instance InferArguments [("quantization_bit", VInt 16); ("dtype", VStr "fp16")])
          "bnb_4bit_comp_dtype" (VStr "fp16")).
Proof.
  apply (select_bnb_other_widths sample_env _ 16 "AUTO" "fp16" float16);
    first [reflexivity | lia].
Defined.

(** ** Inheriting arguments from a checkpoint directory *)

Lemma import_key_ok (fields : gmap string PyVal) (key : string) (args : Obj) :
  (key ∈ kept_if_set -> is_Some (obj_dict args !! key)) ->
  import_key (JObject fields) key args
  = Ok (if bool_decide (key ∈ kept_if_set)
           && negb (is_none (getattr_default args key VNone))
        then args
        else setattr args key (default VNone (fields !! key))).
Proof.
  intros Hattr. unfold import_key, py_and, getattr, getattr_default.
  rewrite bind_Ok. destruct (bool_decide_reflect (key ∈ kept_if_set)) as [Hin|Hout].
  - destruct (Hattr Hin) as [v Hv]. rewrite Hv. simpl.
    destruct (is_none v); reflexivity.
  - reflexivity.
Qed.

(** The loop over a duplicate-free list of keys, field by field. *)
Lemma import_keys_lookup (fields : gmap string PyVal) (keys : list string) :
  NoDup keys ->
  forall args,
    (forall k, k ∈ keys -> k ∈ kept_if_set -> is_Some (obj_dict args !! k)) ->
    exists args',
      for_each keys (import_key (JObject fields)) args = Ok args'
      /\ obj_class args' = obj_class args
      /\ forall k,
           obj_dict args' !! k
           = if bool_decide (k ∈ keys) then
               if bool_decide (k ∈ kept_if_set)
                  && negb (is_none (getattr_default args k VNone))
               then obj_dict args !! k
               else Some (default VNone (fields !! k))
             else obj_dict args !! k.
Proof.
  induction 1 as [|key keys Hnotin Hnodup IH]; intros args Hattrs.
  - exists args. split; [reflexivity|]. split; [reflexivity|].
    intros k. rewrite bool_decide_eq_false_2; [reflexivity|apply not_elem_of_nil].
  - cbn [for_each]. rewrite import_key_ok by (intros; apply Hattrs; [left|assumption]).
    rewrite bind_Ok.
    set (args1 := if bool_decide (key ∈ kept_if_set)
                     && negb (is_none (getattr_default args key VNone))
                  then args else setattr args key (default VNone (fields !! key))).
    assert (forall k, k <> key -> obj_dict args1 !! k = obj_dict args !! k) as Hother.
    { intros k Hk. subst args1. destruct (_ && _); [reflexivity|].
      simpl. apply lookup_insert_ne. congruence. }
    assert (obj_class args1 = obj_class args) as Hcls.
    { subst args1. destruct (_ && _); reflexivity. }
    destruct (IH args1) as (args' & Hrun & Hcls' & Hlook).
    { intros k Hin Hkept. rewrite Hother; [apply Hattrs; [right|]; assumption|].
      intros ->. contradiction. }
    exists args'. split; [exact Hrun|]. split; [congruence|].
    intros k. rewrite Hlook. destruct (decide (k = key)) as [->|Hne].
    + rewrite (bool_decide_eq_false_2 (key ∈ keys)) by assumption.
      rewrite (bool_decide_eq_true_2 (key ∈ key :: keys)) by left.
      subst args1. destruct (_ && _) eqn:Hskip; [reflexivity|].
      simpl. apply lookup_insert_eq.
    + assert (bool_decide (k ∈ key :: keys) = bool_decide (k ∈ keys)) as ->.
      { apply bool_decide_ext. rewrite elem_of_cons. tauto. }
      unfold getattr_default. rewrite !Hother by assumption. reflexivity.
Qed.

Lemma imported_keys_NoDup (eval_human : PyVal) : NoDup (imported_keys eval_human).
Proof.
  unfold imported_keys, dataset_keys. destruct (negb (py_truthy eval_human)); simpl;
    refine (bool_decide_unpack _ _); vm_compute; exact I.
Qed.

(** What [load_from_ckpt_dir] does with a snapshot that is a flat
    object. *)
Lemma load_from_ckpt_dir_lookup
    (env : Env) (args : Obj) (rt : Runtime)
    (ckpt_dir : string) (fields : gmap string PyVal) (eval_human : PyVal) :
  obj_dict args !! "ckpt_dir" = Some (VStr ckpt_dir) ->
  path_exists env (os_path_join ckpt_dir "sft_args.json") = true ->
  json_load env (os_path_join ckpt_dir "sft_args.json") = Ok (JObject fields) ->
  obj_dict args !! "eval_human" = Some eval_human ->
  has_attrs kept_if_set args ->
  exists args',
    load_from_ckpt_dir env args rt = Ok (args', rt)
    /\ obj_class args' = obj_class args
    /\ forall k,
         obj_dict args' !! k
         = if bool_decide (k ∈ imported_keys eval_human) then
             if bool_decide (k ∈ kept_if_set)
                && negb (is_none (getattr_default args k VNone))
             then obj_dict args !! k
             else Some (default VNone (fields !! k))
           else obj_dict args !! k.
Proof.
  intros Hdir Hex Hjson Heval Hattrs.
  destruct (import_keys_lookup fields (imported_keys eval_human)
              (imported_keys_NoDup eval_human) args) as (args' & Hrun & Hcls & Hlook).
  { intros k _ Hk. unfold has_attrs in Hattrs. rewrite Forall_forall in Hattrs. auto. }
  exists args'. split; [|split; assumption].
  unfold load_from_ckpt_dir, getattr. rewrite Hdir. simpl. rewrite Hex. simpl.
  rewrite Hjson. simpl. rewrite Heval. simpl. rewrite Hrun. reflexivity.
Qed.

(** C9.  Without a snapshot file in the checkpoint directory,
    [load_from_ckpt_dir] returns normally, the configuration untouched;
    it only logs that the file was not found. *)
Theorem load_from_ckpt_dir_missing_snapshot
    (env : Env) (args : Obj) (rt : Runtime) (ckpt_dir : string) :
  obj_dict args !! "ckpt_dir" = Some (VStr ckpt_dir) ->
  path_exists env (os_path_join ckpt_dir "sft_args.json") = false ->
  load_from_ckpt_dir env args rt
  = Ok (args,
        logger INFO
          [Fmt (VStr (os_path_join ckpt_dir "sft_args.json")); Lit " not found"] rt).
Proof.
  intros Hdir Hex. unfold load_from_ckpt_dir, getattr.
  rewrite Hdir. simpl. rewrite Hex. reflexivity.
Qed.

Lemma load_from_ckpt_dir_missing_snapshot_witness :
  load_from_ckpt_dir sample_env
    (new_instance InferArguments [("ckpt_dir", VStr "/runs/missing"); ("dtype", VStr "fp16")])
    sample_runtime
  = Ok (new_instance InferArguments [("ckpt_dir", VStr "/runs/missing"); ("dtype", VStr "fp16")],
        logger INFO
          [Fmt (VStr (os_path_join "/runs/missing" "sft_args.json")); Lit " not found"]
          sample_runtime).
Proof.
  apply (load_from_ckpt_dir_missing_snapshot sample_env _ sample_runtime "/runs/missing");
    reflexivity.
Defined.



Lemma sample_has_attrs (kwargs : list (string * PyVal)) :
  has_attrs kept_if_set (new_instance InferArguments kwargs).
Proof.
  unfold has_attrs, kept_if_set, new_instance. cbn [obj_dict].
  repeat constructor; apply elem_of_dom; rewrite dom_list_to_map_L, fmap_app;
    apply elem_of_list_to_set, elem_of_app; right;
    refine (bool_decide_unpack _ _); vm_compute; exact I.
Qed.


(** C10.  An allow-listed key outside the kept ones that the snapshot
    does not define is set to [None], whatever value the field had. *)
Theorem load_from_ckpt_dir_missing_key
    (env : Env) (args : Obj) (rt : Runtime)
    (ckpt_dir : string) (fields : gmap string PyVal) (eval_human : PyVal) (k : string) :
  obj_dict args !! "ckpt_dir" = Some (VStr ckpt_dir) ->
  path_exists env (os_path_join ckpt_dir "sft_args.json") = true ->
  json_load env (os_path_join ckpt_dir "sft_args.json") = Ok (JObject fields) ->
  obj_dict args !! "eval_human" = Some eval_human ->
  has_attrs kept_if_set args ->
  k ∈ imported_keys eval_human -> k ∉ kept_if_set -> fields !! k = None ->
  exists args',
    load_from_ckpt_dir env args rt = Ok (args', rt)
    /\ obj_dict args' !! k = Some VNone.
Proof.
  intros Hdir Hex Hjson Heval Hattrs Hk Hnk Hv.
  destruct (load_from_ckpt_dir_lookup env args rt ckpt_dir fields eval_human)
    as (args' & Hrun & _ & Hlook); auto.
  exists args'. split; [exact Hrun|]. rewrite Hlook.
  rewrite (bool_decide_eq_true_2 _ Hk), (bool_decide_eq_false_2 _ Hnk), Hv.
  reflexivity.
Qed.

Lemma load_from_ckpt_dir_missing_key_witness :
  exists args',
    load_from_ckpt_dir sample_env
      (new_instance InferArguments
         [("ckpt_dir", VStr "/runs/v0/checkpoint-100"); ("system", VStr "be brief")])
      sample_runtime
    = Ok (args', sample_runtime)
    /\ obj_dict args' !! "system" = Some VNone.
Proof.
  apply (load_from_ckpt_dir_missing_key sample_env _ sample_runtime
           "/runs/v0/checkpoint-100" sample_snapshot (VBool false) "system");
    first [reflexivity | apply sample_has_attrs
          | refine (bool_decide_unpack _ _); vm_compute; exact I ].
Defined.

(** The sample run: the dataset given on the command line is kept, the
    model and the precision come from the snapshot, and the system
    prompt, which the snapshot lacks, is lost. *)
Example load_from_ckpt_dir_sample :
  ('(args, _) ← load_from_ckpt_dir sample_env
                  (new_instance InferArguments
                     [("ckpt_dir", VStr "/runs/v0/checkpoint-100");
                      ("dataset", VList [VStr "mine"]); ("dtype", VStr "fp16")])
                  sample_runtime;
   mret (obj_dict args !! "dataset", obj_dict args !! "model_type",
         obj_dict args !! "dtype", obj_dict args !! "system"))
  = Ok (Some (VList [VStr "mine"]), Some (VStr "qwen-7b-chat"),
        Some (VStr "bf16"), Some VNone).
Proof. vm_compute. reflexivity. Qed.

(** In a human evaluation the dataset fields stay as they are, even
    unset. *)
Example load_from_ckpt_dir_eval_human :
  ('(args, _) ← load_from_ckpt_dir sample_env
                  (new_instance InferArguments
                     [("ckpt_dir", VStr "/runs/v0/checkpoint-100");
                      ("eval_human", VBool true)])
                  sample_runtime;
   mret (obj_dict args !! "dataset", obj_dict args !! "dataset_seed",
         obj_dict args !! "model_cache_dir"))
  = Ok (Some VNone, Some (VInt 42), Some (VStr "/snapshot/cache")).
Proof. vm_compute. reflexivity. Qed.

(** ** Path normalisation *)

Lemma PyVal_list_ind (P : PyVal -> Prop) :
  P VNone -> (forall b, P (VBool b)) -> (forall n, P (VInt n)) ->
  (forall r, P (VFloat r)) -> (forall s, P (VStr s)) ->
  (forall l, Forall P l -> P (VList l)) -> (forall l, P (VTuple l)) ->
  (forall d, P (VDtype d)) ->
  forall v, P v.
Proof.
  intros HN HB HI HF HS HL HT HD. fix IH 1.
  intros [|b|n|r|s|l|l|d];
    [exact HN|apply HB|apply HI|apply HF|apply HS| |apply HT|apply HD].
  apply HL. induction l as [|x l IHl]; constructor; [apply IH|exact IHl].
Qed.

Lemma map_result_fixed {A} (f : A -> Result A) (l l' : list A) :
  Forall (fun x => forall y, f x = Ok y -> f y = Ok y) l ->
  map_result f l = Ok l' -> map_result f l' = Ok l'.
Proof.
  intros Hall. revert l'. induction Hall as [|x l Hx Hall IH]; intros l' Hrun.
  - simpl in Hrun. injection Hrun as <-. reflexivity.
  - simpl in Hrun. destruct (f x) as [y|e] eqn:Hfx; [|discriminate].
    rewrite bind_Ok in Hrun.
    destruct (map_result f l) as [ys|e] eqn:Hl; [|discriminate].
    rewrite bind_Ok in Hrun. injection Hrun as <-.
    simpl. rewrite (Hx y eq_refl), bind_Ok, (IH ys eq_refl). reflexivity.
Qed.

Lemma prefix_slash_not_tilde (p : string) :
  String.prefix "/" p = true -> String.prefix "~" p = false.
Proof.
  destruct p as [|[b0 b1 b2 b3 b4 b5 b6 b7] p]; [discriminate|].
  destruct b0, b1, b2, b3, b4, b5, b6, b7; cbn; first [discriminate|reflexivity].
Qed.

Section PathFacts.
Variable env : Env.
Hypothesis posix : posix_paths env.

Lemma normalized_path_fixed (p : string) :
  abspath env (expanduser env (abspath env (expanduser env p)))
  = abspath env (expanduser env p).
Proof.
  rewrite (expanduser_no_tilde env posix (abspath env _)).
  - apply (abspath_idempotent env posix).
  - apply prefix_slash_not_tilde, (abspath_absolute env posix).
Qed.

(** A value that passed [_check_path] passes again, unchanged. *)
Lemma _check_path_fixed (k : string) (set : list string) (v v' : PyVal) :
  _check_path env k v set = Ok v' -> _check_path env k v' set = Ok v'.
Proof.
  revert v'. induction v as [|b|n|r|s|l IH|l|d] using PyVal_list_ind;
    intros v' Hrun; simpl in Hrun; try (injection Hrun as <-; reflexivity).
  - destruct (bool_decide (k ∈ set) && negb (path_exists env _)) eqn:Hex;
      [discriminate|]. injection Hrun as <-. simpl.
    rewrite normalized_path_fixed, Hex. reflexivity.
  - destruct (map_result _ l) as [res|e] eqn:Hl; [|discriminate].
    rewrite bind_Ok in Hrun. injection Hrun as <-. simpl.
    rewrite (map_result_fixed _ l res IH Hl). reflexivity.
Qed.

Lemma setattr_same (args : Obj) (k : string) (v : PyVal) :
  obj_dict args !! k = Some v -> setattr args k v = args.
Proof.
  intros Hv. destruct args as [cls dict]. unfold setattr. simpl in *.
  rewrite insert_id by assumption. reflexivity.
Qed.

Lemma handle_path_step_fixed (set : list string) (k : string) (args : Obj) :
  path_normal env set k args -> handle_path_step env set k args = Ok args.
Proof.
  unfold path_normal, handle_path_step, getattr_default.
  destruct (obj_dict args !! k) as [v|] eqn:Hv; simpl; [|reflexivity].
  intros [Hnone|Hcheck].
  - rewrite Hnone. reflexivity.
  - destruct (is_none v); [reflexivity|].
    rewrite Hcheck, bind_Ok. unfold mret, Result_ret. f_equal.
    apply setattr_same, Hv.
Qed.

(** A step normalises the value under its key and touches nothing else. *)
Lemma handle_path_step_spec (set : list string) (k : string) (args args' : Obj) :
  handle_path_step env set k args = Ok args' ->
  path_normal env set k args'
  /\ obj_class args' = obj_class args
  /\ forall j, j <> k -> obj_dict args' !! j = obj_dict args !! j.
Proof.
  unfold handle_path_step, getattr_default, path_normal.
  destruct (obj_dict args !! k) as [v|] eqn:Hv; simpl.
  - destruct (is_none v) eqn:Hnone.
    + intros [= <-]. rewrite Hv. auto.
    + destruct (_check_path env k v set) as [v'|e] eqn:Hcheck; [|discriminate].
      rewrite bind_Ok. intros [= <-]. simpl. rewrite lookup_insert_eq.
      split; [right; eapply _check_path_fixed; eassumption|].
      split; [reflexivity|]. intros j Hj. apply lookup_insert_ne. congruence.
  - intros [= <-]. rewrite Hv. auto.
Qed.

Lemma handle_path_loop_spec (set keys : list string) :
  forall args args',
    for_each keys (handle_path_step env set) args = Ok args' ->
    Forall (fun k => path_normal env set k args') keys
    /\ obj_class args' = obj_class args
    /\ forall j, j ∉ keys -> obj_dict args' !! j = obj_dict args !! j.
Proof.
  induction keys as [|k keys IH]; intros args args' Hrun.
  - injection Hrun as <-. auto.
  - cbn [for_each] in Hrun.
    destruct (handle_path_step env set k args) as [args1|e] eqn:Hstep; [|discriminate].
    rewrite bind_Ok in Hrun.
    destruct (handle_path_step_spec set k args args1 Hstep) as (Hk & Hcls & Hother).
    destruct (IH args1 args' Hrun) as (Hkeys & Hcls' & Hother').
    split; [|split; [congruence|]].
    + constructor; [|exact Hkeys].
      destruct (decide (k ∈ keys)) as [Hin|Hnotin].
      * rewrite Forall_forall in Hkeys. auto.
      * unfold path_normal in *. rewrite Hother' by assumption. exact Hk.
    + intros j Hj. apply not_elem_of_cons in Hj as [Hjk Hj].
      rewrite Hother', Hother by assumption. reflexivity.
Qed.

Lemma handle_path_loop_fixed (set keys : list string) (args : Obj) :
  Forall (fun k => path_normal env set k args) keys ->
  for_each keys (handle_path_step env set) args = Ok args.
Proof.
  induction 1 as [|k keys Hk Hkeys IH]; [reflexivity|].
  cbn [for_each]. rewrite (handle_path_step_fixed set k args Hk), bind_Ok. exact IH.
Qed.

(** A text value under a key of the loop comes out absolute. *)
Lemma handle_path_loop_absolute (set keys : list string) (k : string) :
  forall args args' s,
    for_each keys (handle_path_step env set) args = Ok args' ->
    obj_dict args !! k = Some (VStr s) ->
    k ∈ keys \/ String.prefix "/" s = true ->
    exists s', obj_dict args' !! k = Some (VStr s') /\ String.prefix "/" s' = true.
Proof.
  induction keys as [|j keys IH]; intros args args' s Hrun Hk Hcase.
  - injection Hrun as <-. destruct Hcase as [Hin|Hpre].
    + apply elem_of_nil in Hin. contradiction.
    + eauto.
  - cbn [for_each] in Hrun.
    destruct (handle_path_step env set j args) as [args1|e] eqn:Hstep; [|discriminate].
    rewrite bind_Ok in Hrun.
    destruct (decide (j = k)) as [->|Hne].
    + revert Hstep. unfold handle_path_step, getattr_default. rewrite Hk. simpl.
      destruct (bool_decide (k ∈ set) && negb (path_exists env _)); [discriminate|].
      rewrite bind_Ok. intros [= <-].
      apply (IH _ args' (abspath env (expanduser env s)) Hrun).
      * simpl. apply lookup_insert_eq.
      * right. apply (abspath_absolute env posix).
    + destruct (handle_path_step_spec set j args args1 Hstep) as (_ & _ & Hother).
      apply (IH args1 args' s Hrun).
      * rewrite Hother by congruence. exact Hk.
      * destruct Hcase as [Hin|Hpre]; [left|right; exact Hpre].
        apply elem_of_cons in Hin as [->|Hin]; [congruence|exact Hin].
Qed.

Lemma model_id_or_path_is_local_ext (a b : Obj) :
  obj_dict a !! "model_id_or_path" = obj_dict b !! "model_id_or_path" ->
  model_id_or_path_is_local a = model_id_or_path_is_local b.
Proof.
  intros H. unfold model_id_or_path_is_local, getattr. rewrite H. reflexivity.
Qed.

(** [handle_path] on its own result changes nothing. *)
Lemma handle_path_fixed (args args' : Obj) :
  handle_path env args = Ok args' -> handle_path env args' = Ok args'.
Proof.
  unfold handle_path. intros Hrun.
  destruct (model_id_or_path_is_local args) as [c|e] eqn:Hc; [|discriminate].
  rewrite bind_Ok in Hrun.
  match type of Hrun with
  | for_each ?ks (handle_path_step env ?s) args = _ =>
      set (keys := ks) in *; set (cset := s) in *
  end.
  destruct (handle_path_loop_spec cset keys args args' Hrun) as (Hnormal & _ & Hother).
  assert (model_id_or_path_is_local args' = Ok c) as Hc'.
  { destruct c.
    - (* the model path was normalised: it is absolute now *)
      assert (exists s, obj_dict args !! "model_id_or_path" = Some (VStr s)) as [s Hs].
      { revert Hc. unfold model_id_or_path_is_local, py_and, py_or, getattr.
        destruct (obj_dict args !! "model_id_or_path") as [m|]; [|discriminate].
        simpl. destruct m; simpl; try discriminate. eauto. }
      destruct (handle_path_loop_absolute cset keys "model_id_or_path" args args' s Hrun Hs)
        as (s' & Hs' & Hpre).
      { left. subst keys. refine (bool_decide_unpack _ _). vm_compute. exact I. }
      unfold model_id_or_path_is_local, py_and, py_or, getattr. rewrite Hs'. simpl.
      rewrite Hpre, (prefix_slash_not_tilde s' Hpre). reflexivity.
    - rewrite <- Hc. apply model_id_or_path_is_local_ext. apply Hother.
      subst keys. refine (bool_decide_unpack _ _). vm_compute. exact I. }
  rewrite Hc', bind_Ok. fold keys. fold cset.
  apply handle_path_loop_fixed, Hnormal.
Qed.

End PathFacts.

(** A step of the loop of [handle_path] writes its own key only. *)
Lemma handle_path_step_frame (env : Env) (set : list string) (k : string)
    (args args' : Obj) :
  handle_path_step env set k args = Ok args' ->
  obj_class args' = obj_class args
  /\ forall j, j <> k -> obj_dict args' !! j = obj_dict args !! j.
Proof.
  unfold handle_path_step. destruct (is_none _); [intros [= <-]; auto|].
  destruct (_check_path env k _ set) as [v|e]; [|discriminate].
  rewrite bind_Ok. intros [= <-]. split; [reflexivity|].
  intros j Hj. simpl. apply lookup_insert_ne. congruence.
Qed.

Lemma handle_path_loop_frame (env : Env) (set keys : list string) :
  forall args args',
    for_each keys (handle_path_step env set) args = Ok args' ->
    obj_class args' = obj_class args
    /\ forall j, j ∉ keys -> obj_dict args' !! j = obj_dict args !! j.
Proof.
  induction keys as [|k keys IH]; intros args args' Hrun.
  - injection Hrun as <-. auto.
  - cbn [for_each] in Hrun.
    destruct (handle_path_step env set k args) as [args1|e] eqn:Hstep; [|discriminate].
    rewrite bind_Ok in Hrun.
    destruct (handle_path_step_frame env set k args args1 Hstep) as (Hcls & Hother).
    destruct (IH args1 args' Hrun) as (Hcls' & Hother').
    split; [congruence|].
    intros j Hj. apply not_elem_of_cons in Hj as [Hjk Hj].
    rewrite Hother', Hother by assumption. reflexivity.
Qed.

(** [handle_path] only writes the path-like keys. *)
Lemma handle_path_frame (env : Env) (args args' : Obj) :
  handle_path env args = Ok args' ->
  same_except
    ["model_cache_dir"; "ckpt_dir"; "resume_from_checkpoint";
     "deepspeed_config_path"; "custom_train_dataset_path";
     "custom_val_dataset_path"; "model_id_or_path"; "output_dir"; "logging_dir"]
    args args'.
Proof.
  unfold handle_path. intros Hrun.
  destruct (model_id_or_path_is_local args) as [c|e]; [|discriminate].
  rewrite bind_Ok in Hrun.
  apply handle_path_loop_frame in Hrun as (Hcls & Hother).
  split; [exact Hcls|]. intros k Hk. apply Hother.
  intros Hin. apply Hk. destruct c; simpl in Hin; [exact Hin|].
  repeat (apply elem_of_cons in Hin as [->|Hin];
          [refine (bool_decide_unpack _ _); vm_compute; exact I|]).
  apply elem_of_nil in Hin. contradiction.
Qed.

(** ** Alias rewriting *)

Lemma split_comma_nonempty (s : string) : split_comma s <> [].
Proof.
  induction s as [|c s IH]; simpl; [discriminate|].
  destruct (Ascii.eqb c _); [discriminate|].
  destruct (split_comma s); [contradiction|discriminate].
Qed.

Lemma prefix_comma (c : Ascii.ascii) (s : string) :
  String.prefix "," (String c s) = Ascii.eqb c (Ascii.ascii_of_nat 44).
Proof.
  cbn [String.prefix]. destruct (Ascii.ascii_dec _ c) as [<-|Hne].
  - destruct s; reflexivity.
  - symmetry. apply Ascii.eqb_neq. intros ->. apply Hne. reflexivity.
Qed.

(** Splitting text that holds a comma gives at least two parts. *)
Lemma split_comma_length (s : string) :
  str_contains "," s = true -> (2 <= length (split_comma s))%nat.
Proof.
  induction s as [|c s IH]; [discriminate|].
  cbn [str_contains split_comma]. rewrite prefix_comma.
  destruct (Ascii.eqb c _); simpl.
  - intros _. pose proof (split_comma_nonempty s).
    destruct (split_comma s); [contradiction|simpl; lia].
  - intros H. specialize (IH H). destruct (split_comma s); simpl in *; lia.
Qed.

Lemma dataset_is_comma_joined_ext (a b : Obj) :
  obj_dict a !! "dataset" = obj_dict b !! "dataset" ->
  dataset_is_comma_joined a = dataset_is_comma_joined b.
Proof. intros H. unfold dataset_is_comma_joined, getattr. rewrite H. reflexivity. Qed.

Lemma lora_target_is_auto_ext (a b : Obj) :
  obj_class a = obj_class b ->
  obj_dict a !! "lora_target_modules" = obj_dict b !! "lora_target_modules" ->
  lora_target_is_auto a = lora_target_is_auto b.
Proof.
  intros Hc H. unfold lora_target_is_auto, isinstance_SftArguments, getattr.
  rewrite Hc, H. reflexivity.
Qed.

Lemma show_dataset_sample_overrides_ext (a b : Obj) :
  obj_class a = obj_class b ->
  obj_dict a !! "show_dataset_sample" = obj_dict b !! "show_dataset_sample" ->
  obj_dict a !! "val_dataset_sample" = obj_dict b !! "val_dataset_sample" ->
  show_dataset_sample_overrides a = show_dataset_sample_overrides b.
Proof.
  intros Hc H1 H2. unfold show_dataset_sample_overrides, isinstance_InferArguments, getattr.
  rewrite Hc, H1, H2. reflexivity.
Qed.

(** Stability only looks at the class and at five attributes. *)
Lemma compat_stable_ext (env : Env) (a b : Obj) :
  obj_class a = obj_class b ->
  (forall k, k ∈ ["dataset"; "template_type"; "lora_target_modules";
                  "show_dataset_sample"; "val_dataset_sample"] ->
             obj_dict a !! k = obj_dict b !! k) ->
  compat_stable env a -> compat_stable env b.
Proof.
  intros Hc Hk (Hd & (t & Ht & Ht1 & Ht2) & Hl & Hs).
  assert (forall k, bool_decide (k ∈ ["dataset"; "template_type"; "lora_target_modules";
                                      "show_dataset_sample"; "val_dataset_sample"]) = true ->
                    obj_dict a !! k = obj_dict b !! k) as Hk'
    by (intros k Hin; apply Hk; exact (bool_decide_eq_true_1 _ Hin)).
  split; [|split; [|split]].
  - rewrite <- Hd. symmetry. apply dataset_is_comma_joined_ext, Hk'. reflexivity.
  - exists t. rewrite <- (Hk' "template_type") by reflexivity. auto.
  - rewrite <- Hl. symmetry. apply lora_target_is_auto_ext; [exact Hc|].
    apply Hk'. reflexivity.
  - rewrite <- Hs. symmetry.
    apply show_dataset_sample_overrides_ext; [exact Hc| |]; apply Hk'; reflexivity.
Qed.

Lemma getattr_Some (args : Obj) (k : string) (v : PyVal) :
  obj_dict args !! k = Some v -> getattr args k = Ok v.
Proof. intros H. unfold getattr. rewrite H. reflexivity. Qed.

(** A stable configuration is a fixed point of [handle_compatibility]. *)
Lemma handle_compatibility_fixed (env : Env) (args : Obj) :
  compat_stable env args -> handle_compatibility env args = Ok args.
Proof.
  intros (Hd & (t & Ht & Ht1 & Ht2) & Hl & Hs). unfold handle_compatibility.
  rewrite Hd, !bind_Ok.
  rewrite (getattr_Some _ _ _ Ht), bind_Ok, Ht1.
  rewrite (getattr_Some _ _ _ Ht), bind_Ok.
  assert ((if py_eq_str t "qwen"
           then setattr args "template_type" (VStr (TemplateType_chatml env))
           else args) = args) as ->.
  { destruct (py_eq_str t "qwen") eqn:Hq; [|reflexivity].
    destruct Ht2 as [? | ->]; [congruence|]. apply setattr_same, Ht. }
  rewrite Hl, bind_Ok, Hs, bind_Ok. reflexivity.
Qed.

Ltac bind_inv H :=
  match type of H with
  | (?m ≫= _) = Ok _ =>
      let E := fresh "E" in
      destruct m eqn:E; [rewrite bind_Ok in H | discriminate H]
  end.

Lemma dataset_stage (args args1 : Obj) (c : bool) :
  dataset_is_comma_joined args = Ok c ->
  (if c then
     dataset ← getattr args "dataset";
     d0 ← py_getitem0 dataset;
     parts ← py_split_comma d0;
     mret (setattr args "dataset" parts)
   else mret args) = Ok args1 ->
  dataset_is_comma_joined args1 = Ok false
  /\ obj_class args1 = obj_class args
  /\ forall k, k <> "dataset" -> obj_dict args1 !! k = obj_dict args !! k.
Proof.
  intros Hc Hrun. destruct c.
  - bind_inv Hrun. bind_inv Hrun. bind_inv Hrun. injection Hrun as <-.
    revert Hc. unfold dataset_is_comma_joined, py_and. rewrite E, !bind_Ok.
    destruct (negb (is_none a)); [|discriminate].
    destruct (py_len a) as [n|]; [|discriminate]. rewrite bind_Ok.
    unfold mret at 1, Result_ret. rewrite bind_Ok.
    destruct (n =? 1); [|discriminate]. rewrite E0, bind_Ok.
    destruct a0 as [| | | |s| | |]; try discriminate.
    simpl in E1. injection E1 as <-. simpl. intros [= Hcomma].
    split; [|split; [reflexivity|]].
    + unfold getattr. simpl. rewrite lookup_insert_eq. simpl.
      pose proof (split_comma_length s Hcomma) as Hlen.
      unfold len. rewrite length_fmap.
      destruct (Z.eqb_spec (Z.of_nat (length (split_comma s))) 1); [lia|reflexivity].
    + intros k Hk. simpl. apply lookup_insert_ne. congruence.
  - injection Hrun as <-. auto.
Qed.

Lemma template_stage (env : Env) (args : Obj) (t : PyVal) :
  TemplateType_chatml env <> "chatglm2-generation" ->
  obj_dict args !! "template_type" = Some t ->
  let args2 := if py_eq_str t "chatglm2-generation"
               then setattr args "template_type" (VStr "chatglm-generation")
               else args in
  exists t2, obj_dict args2 !! "template_type" = Some t2
    /\ let args3 := if py_eq_str t2 "qwen"
                    then setattr args2 "template_type" (VStr (TemplateType_chatml env))
                    else args2 in
       (exists t3, obj_dict args3 !! "template_type" = Some t3
                   /\ py_eq_str t3 "chatglm2-generation" = false
                   /\ (py_eq_str t3 "qwen" = false \/ t3 = VStr (TemplateType_chatml env)))
       /\ obj_class args3 = obj_class args
       /\ forall k, k <> "template_type" -> obj_dict args3 !! k = obj_dict args !! k.
Proof.
  intros Hchat Ht. cbv zeta.
  assert (py_eq_str (VStr (TemplateType_chatml env)) "chatglm2-generation" = false) as Hc.
  { simpl. apply String.eqb_neq, Hchat. }
  destruct (py_eq_str t "chatglm2-generation") eqn:H1.
  - exists (VStr "chatglm-generation"). split; [apply lookup_insert_eq|].
    change (py_eq_str (VStr "chatglm-generation") "qwen") with false. cbv iota.
    split; [|split; [reflexivity|]].
    + exists (VStr "chatglm-generation"). split; [apply lookup_insert_eq|].
      split; [reflexivity|left; reflexivity].
    + intros k Hk. simpl. apply lookup_insert_ne. congruence.
  - exists t. split; [exact Ht|]. destruct (py_eq_str t "qwen") eqn:H2.
    + split; [|split; [reflexivity|]].
      * exists (VStr (TemplateType_chatml env)). split; [apply lookup_insert_eq|].
        split; [exact Hc|right; reflexivity].
      * intros k Hk. simpl. apply lookup_insert_ne. congruence.
    + split; [|split; [reflexivity|reflexivity]].
      exists t. auto.
Qed.

Lemma lora_stage (args : Obj) (c : bool) :
  lora_target_is_auto args = Ok c ->
  let args' := if c then setattr args "lora_target_modules" (VList [VStr "DEFAULT"])
               else args in
  lora_target_is_auto args' = Ok false
  /\ obj_class args' = obj_class args
  /\ forall k, k <> "lora_target_modules" -> obj_dict args' !! k = obj_dict args !! k.
Proof.
  intros Hc. cbv zeta. destruct c; [|auto].
  split; [|split; [reflexivity|]].
  - revert Hc. unfold lora_target_is_auto, py_and, isinstance_SftArguments, getattr.
    simpl. destruct (obj_class args); simpl; try discriminate.
    intros _. rewrite lookup_insert_eq. reflexivity.
  - intros k Hk. simpl. apply lookup_insert_ne. congruence.
Qed.

Lemma show_stage (args args' : Obj) (c : bool) :
  show_dataset_sample_overrides args = Ok c ->
  (if c then
     show ← getattr args "show_dataset_sample";
     mret (setattr args "val_dataset_sample" show)
   else mret args) = Ok args' ->
  show_dataset_sample_overrides args' = Ok false
  /\ obj_class args' = obj_class args
  /\ forall k, k <> "val_dataset_sample" -> obj_dict args' !! k = obj_dict args !! k.
Proof.
  intros Hc Hrun. destruct c.
  - bind_inv Hrun. injection Hrun as <-.
    split; [|split; [reflexivity|]].
    + revert Hc E.
      unfold show_dataset_sample_overrides, py_and, isinstance_InferArguments, getattr.
      simpl. destruct (obj_class args); simpl; try discriminate.
      all: rewrite (lookup_insert_ne _ "val_dataset_sample" "show_dataset_sample") by done.
      all: rewrite lookup_insert_eq.
      all: destruct (obj_dict args !! "show_dataset_sample") as [sh|]; [|discriminate].
      all: simpl; destruct (py_eq_int sh 10) eqn:Hsh; simpl; [discriminate|].
      all: intros _ [= <-]; simpl; rewrite Hsh; reflexivity.
    + intros k Hk. simpl. apply lookup_insert_ne. congruence.
  - injection Hrun as <-. auto.
Qed.

(** Whatever [handle_compatibility] returns is stable. *)
Lemma handle_compatibility_stable (env : Env) (args args' : Obj) :
  TemplateType_chatml env <> "chatglm2-generation" ->
  handle_compatibility env args = Ok args' -> compat_stable env args'.
Proof.
  intros Hchat Hrun. unfold handle_compatibility in Hrun.
  bind_inv Hrun. rename a into c1, E into Hc1.
  bind_inv Hrun. rename a into args1, E into Hargs1.
  destruct (dataset_stage args args1 c1 Hc1 Hargs1) as (Hd1 & Hcls1 & Hk1).
  bind_inv Hrun. rename a into t, E into Ht.
  assert (obj_dict args1 !! "template_type" = Some t) as Ht'.
  { revert Ht. unfold getattr. destruct (obj_dict args1 !! "template_type"); congruence. }
  destruct (template_stage env args1 t Hchat Ht') as (t2 & Ht2 & Hstable3 & Hcls3 & Hk3).
  rewrite (getattr_Some _ _ _ Ht2), bind_Ok in Hrun.
  match type of Hstable3 with
  | context [obj_dict ?a !! "template_type"] => set (args3 := a) in *
  end.
  bind_inv Hrun. rename a into c3, E into Hc3.
  destruct (lora_stage args3 c3 Hc3) as (Hl4 & Hcls4 & Hk4).
  match type of Hl4 with
  | lora_target_is_auto ?a = _ => set (args4 := a) in *
  end.
  bind_inv Hrun. rename a into c4, E into Hc4.
  destruct (show_stage args4 args' c4 Hc4 Hrun) as (Hs5 & Hcls5 & Hk5).
  split; [|split; [|split]].
  - rewrite <- Hd1. apply dataset_is_comma_joined_ext.
    rewrite Hk5, Hk4, Hk3 by done. reflexivity.
  - destruct Hstable3 as (t3 & Ht3 & Hfacts). exists t3. split; [|exact Hfacts].
    rewrite Hk5, Hk4 by done. exact Ht3.
  - rewrite <- Hl4. apply lora_target_is_auto_ext; [exact Hcls5|].
    rewrite Hk5 by done. reflexivity.
  - exact Hs5.
Qed.

(** ** Normalising twice *)

(** C8.  On POSIX paths, and with the [chatml] template constant not
    being the alias [chatglm2-generation], running [handle_compatibility]
    and then [handle_path] a second time gives what the first run gave:
    the same configuration when the first run returned one, the same
    error otherwise. *)
Theorem normalize_idempotent (env : Env) (args : Obj) :
  posix_paths env ->
  TemplateType_chatml env <> "chatglm2-generation" ->
  (args' ← normalize env args; normalize env args') = normalize env args.
Proof.
  intros Hposix Hchat. unfold normalize.
  destruct (handle_compatibility env args) as [args1|e] eqn:Hcompat; [|reflexivity].
  rewrite !bind_Ok.
  destruct (handle_path env args1) as [args2|e] eqn:Hpath; [|reflexivity].
  rewrite bind_Ok.
  assert (compat_stable env args2) as Hstable.
  { apply (compat_stable_ext env args1 args2).
    - symmetry. apply (handle_path_frame env args1 args2 Hpath).
    - intros k Hk. symmetry. apply (handle_path_frame env args1 args2 Hpath).
      intros Hin.
      repeat (apply elem_of_cons in Hk as [->|Hk];
              [revert Hin; refine (bool_decide_unpack _ _); vm_compute; exact I|]).
      apply elem_of_nil in Hk. contradiction.
    - eapply handle_compatibility_stable; eassumption. }
  rewrite (handle_compatibility_fixed env args2 Hstable), bind_Ok.
  eapply handle_path_fixed; eassumption.
Qed.

Lemma sample_env_posix : posix_paths sample_env.
Proof.
  split.
  - intros [|[b0 b1 b2 b3 b4 b5 b6 b7] p]; [reflexivity|].
    destruct b0, b1, b2, b3, b4, b5, b6, b7; cbn; intros H;
      first [reflexivity | destruct p; discriminate H].
  - intros p. simpl. destruct (String.prefix "/" p) eqn:Hp; [exact Hp|reflexivity].
  - intros p. simpl. destruct (String.prefix "/" p) eqn:Hp.
    + rewrite Hp. reflexivity.
    + reflexivity.
Qed.

Example normalize_sample :
  (args ← normalize sample_env sample_infer_args;
   mret (obj_dict args !! "ckpt_dir", obj_dict args !! "dataset",
         obj_dict args !! "template_type", obj_dict args !! "val_dataset_sample"))
  = Ok (Some (VStr "/home/user/runs/v0/checkpoint-100"),
        Some (VList [VStr "alpaca-en"; VStr "alpaca-zh"]),
        Some (VStr "chatml"), Some (VInt 5)).
Proof. vm_compute. reflexivity. Qed.

Lemma normalize_idempotent_witness :
  (args' ← normalize sample_env sample_infer_args; normalize sample_env args')
  = normalize sample_env sample_infer_args.
Proof.
  apply (normalize_idempotent sample_env sample_infer_args sample_env_posix).
  discriminate.
Defined.

(** ** Precision resolution *)

Lemma setattr_lookup_ne (args : Obj) (k j : string) (v : PyVal) :
  k <> j -> obj_dict (setattr args k v) !! j = obj_dict args !! j.
Proof. intros H. simpl. apply lookup_insert_ne, H. Qed.

Lemma setattr_lookup_eq (args : Obj) (k : string) (v : PyVal) :
  obj_dict (setattr args k v) !! k = Some v.
Proof. simpl. apply lookup_insert_eq. Qed.

Lemma dtype_mapping_reversed_lookup (s : string) (d : Dtype) :
  dtype_mapping_reversed !! s = Some d -> s = dtype_mapping d.
Proof.
  unfold dtype_mapping_reversed. cbn [fmap list_fmap list_to_map foldr dtype_mapping].
  cbn [uncurry fst snd].
  rewrite !lookup_insert. repeat case_decide; subst; try (intros [= <-]; reflexivity).
Qed.

Lemma dict_getitem_dtype (v : PyVal) (d : Dtype) :
  dict_getitem dtype_mapping_reversed v = Ok d -> v = VStr (dtype_mapping d).
Proof.
  unfold dict_getitem. destruct v; try (destruct (py_hashable _); discriminate).
  destruct (dtype_mapping_reversed !! s) as [d'|] eqn:Hs; [|discriminate].
  intros [= <-]. f_equal. apply dtype_mapping_reversed_lookup, Hs.
Qed.

Lemma getattr_Ok (args : Obj) (k : string) (v : PyVal) :
  getattr args k = Ok v -> obj_dict args !! k = Some v.
Proof. unfold getattr. destruct (obj_dict args !! k); congruence. Qed.

(** Reading attributes of an instance built from known values. *)
Ltac lookups :=
  repeat first
    [ rewrite lookup_insert_eq
    | rewrite lookup_insert_ne by done
    | match goal with
      | H : obj_dict _ !! _ = _ |- _ => rewrite H
      end
    | progress simpl ].

(** ** What each stage of [__post_init__] leaves alone *)

Lemma same_except_refl (W : list string) (a : Obj) : same_except W a a.
Proof. split; auto. Qed.

Lemma same_except_setattr (W : list string) (a b : Obj) (k : string) (v : PyVal) :
  k ∈ W -> same_except W a b -> same_except W a (setattr b k v).
Proof.
  intros Hk [Hcls Hother]. split; [exact Hcls|].
  intros j Hj. simpl. rewrite lookup_insert_ne by (intros ->; contradiction).
  apply Hother, Hj.
Qed.

Lemma same_except_trans (W1 W2 : list string) (a b c : Obj) :
  same_except W1 a b -> same_except W2 b c -> same_except (W1 ++ W2) a c.
Proof.
  intros [Hc1 H1] [Hc2 H2]. split; [congruence|].
  intros k Hk. apply not_elem_of_app in Hk as [Hk1 Hk2].
  rewrite H2, H1 by assumption. reflexivity.
Qed.

Lemma Ok_inj {A} (x y : A) : Ok x = Ok y -> x = y.
Proof. intros [= H]. exact H. Qed.

(** Taking a successful run apart, one statement at a time. *)
Ltac run_inv :=
  repeat match goal with
    | H : Err _ = Ok _ |- _ => discriminate H
    | H : Ok _ = Ok _ |- _ => apply Ok_inj in H; subst
    | H : mret _ = Ok _ |- _ => apply Ok_inj in H; subst
    | H : (_, _) = (_, _) |- _ => injection H as H; subst
    | H : (?m ≫= _) = Ok _ |- _ =>
        let E := fresh "E" in
        destruct m eqn:E; [rewrite bind_Ok in H | discriminate H]
    | H : (if ?c then _ else _) = Ok _ |- _ => destruct c eqn:?
    | H : (let _ := _ in _) = Ok _ |- _ => cbv zeta in H
    | H : match ?x with _ => _ end = Ok _ |- _ => destruct x eqn:?
    end.

Ltac key_in :=
  refine (bool_decide_unpack _ _); vm_compute; exact I.

Ltac same_except_solve :=
  repeat match goal with
    | |- context [if ?c then _ else _] => destruct c
    end;
  repeat first
    [ apply same_except_refl
    | apply same_except_setattr; [key_in|] ].

Lemma handle_compatibility_frame (env : Env) (args args' : Obj) :
  handle_compatibility env args = Ok args' ->
  same_except ["dataset"; "template_type"; "lora_target_modules"; "val_dataset_sample"]
    args args'.
Proof.
  unfold handle_compatibility. intros Hrun. run_inv; same_except_solve.
Qed.

Lemma update_revision_lookup (k : string) (rev : PyVal) (mm : list (string * ModelInfo))
    (m : string) (info : ModelInfo) :
  (list_to_map mm : gmap string ModelInfo) !! m = Some info ->
  exists info',
    (list_to_map (update_revision k rev mm) : gmap string ModelInfo) !! m = Some info'
    /\ mi_torch_dtype info' = mi_torch_dtype info.
Proof.
  induction mm as [|[k0 i0] mm IH]; [simpl; rewrite lookup_empty; discriminate|].
  unfold update_revision in *. cbn [fmap list_fmap list_to_map foldr fst snd].
  destruct (decide (k0 = m)) as [->|Hne].
  - rewrite lookup_insert_eq. intros [= ->].
    destruct (String.eqb m k); cbn [fst snd uncurry]; rewrite lookup_insert_eq; eauto.
  - rewrite lookup_insert_ne by assumption. intros H.
    destruct (IH H) as (info' & Hl & Ht). exists info'. split; [|exact Ht].
    destruct (String.eqb k0 k); cbn [fst snd uncurry];
      rewrite lookup_insert_ne by assumption; exact Hl.
Qed.

Lemma registry_kept_refl (rt : Runtime) : registry_kept rt rt.
Proof. intros m info H. eauto. Qed.

Lemma registry_kept_eq (rt rt' : Runtime) :
  MODEL_MAPPING rt' = MODEL_MAPPING rt -> registry_kept rt rt'.
Proof. intros Heq m info H. rewrite Heq. eauto. Qed.

Lemma registry_kept_trans (rt1 rt2 rt3 : Runtime) :
  registry_kept rt1 rt2 -> registry_kept rt2 rt3 -> registry_kept rt1 rt3.
Proof.
  intros H12 H23 m info H. destruct (H12 m info H) as (i2 & H2 & Ht2).
  destruct (H23 m i2 H2) as (i3 & H3 & Ht3). exists i3. split; [exact H3|congruence].
Qed.

(** [set_model_type] writes the three model attributes, never replaces a
    model type that was given, and keeps the registered precisions. *)
Lemma set_model_type_spec (env : Env) (args args' : Obj) (rt rt' : Runtime) :
  set_model_type env args rt = Ok (args', rt') ->
  same_except ["model_type"; "model_revision"; "model_id_or_path"] args args'
  /\ (forall m, obj_dict args !! "model_type" = Some (VStr m) ->
                obj_dict args' !! "model_type" = Some (VStr m))
  /\ registry_kept rt rt'.
Proof.
  unfold set_model_type. intros Hrun. run_inv.
  all: match goal with
       | H : (if ?c then _ else _) = (_, _) |- _ =>
           destruct c; injection H as <- <-
       end.
  all: (split; [same_except_solve|split]).
  all: try apply registry_kept_refl.
  all: try (intros m0 Hinfo; simpl; apply update_revision_lookup; exact Hinfo).
  all: intros m0 Hm0.
  all: first
         [ solve [simpl; rewrite ?lookup_insert_ne by done; exact Hm0]
         | exfalso;
           match goal with
           | E : py_or _ _ = Ok ?a, Hn : negb ?a = false,
             Hp : negb (is_none ?p) = true |- _ =>
               unfold py_or, getattr in E; rewrite Hm0 in E; simpl in E;
               destruct (is_none p); [discriminate Hp|];
               simpl in E; injection E as <-; discriminate Hn
           end ].
Qed.

Lemma register_custom_dataset_spec (env : Env) (args args' : Obj) (rt rt' : Runtime) :
  register_custom_dataset env args rt = Ok (args', rt') ->
  same_except ["custom_train_dataset_path"; "custom_val_dataset_path"; "dataset"]
    args args'
  /\ MODEL_MAPPING rt' = MODEL_MAPPING rt.
Proof.
  unfold register_custom_dataset. intros Hrun. run_inv.
  all: (split; [same_except_solve|reflexivity]).
Qed.

Lemma check_flash_attn_spec (args : Obj) (rt rt' : Runtime) :
  check_flash_attn args rt = Ok rt' -> MODEL_MAPPING rt' = MODEL_MAPPING rt.
Proof. unfold check_flash_attn. intros Hrun. run_inv; reflexivity. Qed.

Lemma output_dir_suffix_spec (env : Env) (args args' : Obj) (rt rt' : Runtime) :
  output_dir_suffix env args rt = Ok (args', rt') ->
  same_except ["output_dir"] args args' /\ MODEL_MAPPING rt' = MODEL_MAPPING rt.
Proof.
  unfold output_dir_suffix. intros Hrun. run_inv.
  all: (split; [same_except_solve|reflexivity]).
Qed.

Lemma init_distributed_spec (env : Env) (args args' : Obj) (rt rt' : Runtime) :
  init_distributed env args rt = Ok (args', rt') ->
  same_except ["seed"; "output_dir"] args args'.
Proof.
  unfold init_distributed. intros Hrun.
  destruct (is_dist env); [|run_inv; same_except_solve].
  destruct (get_dist_setting env) as [[[rank local_rank] ?] ?].
  run_inv; same_except_solve.
Qed.

(** ** Full-parameter training in half precision *)

(** [__post_init__] is its two parts run one after the other. *)
Lemma SftArguments_post_init_split (env : Env) (args : Obj) (rt : Runtime) :
  SftArguments_post_init env args rt
  = ('(self, rt) ← SftArguments_before_select_dtype env args rt;
     SftArguments_from_select_dtype env self rt).
Proof.
  unfold SftArguments_post_init, SftArguments_before_select_dtype,
    SftArguments_from_select_dtype.
  destruct (handle_compatibility env args) as [a1|e]; [|reflexivity].
  rewrite !bind_Ok.
  destruct (handle_path env a1) as [a2|e]; [|reflexivity].
  rewrite !bind_Ok.
  destruct (set_model_type env a2 rt) as [[a3 rt3]|e]; [|reflexivity].
  rewrite !bind_Ok.
  destruct (register_custom_dataset env a3 rt3) as [[a4 rt4]|e]; [|reflexivity].
  rewrite !bind_Ok.
  destruct (check_flash_attn a4 rt4) as [rt5|e]; [|reflexivity].
  rewrite !bind_Ok.
  destruct (output_dir_suffix env a4 rt5) as [[a6 rt6]|e]; reflexivity.
Qed.

(** The statements before [select_dtype] keep the class and every
    attribute outside [written_before_select_dtype]. *)
Lemma SftArguments_before_select_dtype_frame
    (env : Env) (args self : Obj) (rt rt1 : Runtime) :
  SftArguments_before_select_dtype env args rt = Ok (self, rt1) ->
  same_except written_before_select_dtype args self.
Proof.
  unfold SftArguments_before_select_dtype. intros Hrun.
  destruct (handle_compatibility env args) as [a1|e] eqn:H1; [|discriminate].
  rewrite bind_Ok in Hrun.
  destruct (handle_path env a1) as [a2|e] eqn:H2; [|discriminate].
  rewrite bind_Ok in Hrun.
  destruct (set_model_type env a2 rt) as [[a3 rt3]|e] eqn:H3; [|discriminate].
  rewrite bind_Ok in Hrun.
  destruct (register_custom_dataset env a3 rt3) as [[a4 rt4]|e] eqn:H4; [|discriminate].
  rewrite bind_Ok in Hrun.
  destruct (check_flash_attn a4 rt4) as [rt5|e] eqn:H5; [|discriminate].
  rewrite bind_Ok in Hrun.
  apply handle_compatibility_frame in H1 as [C1 F1].
  apply handle_path_frame in H2 as [C2 F2].
  apply set_model_type_spec in H3 as ([C3 F3] & _ & _).
  apply register_custom_dataset_spec in H4 as ([C4 F4] & _).
  apply output_dir_suffix_spec in Hrun as ([C6 F6] & _).
  split; [congruence|].
  intros k Hk. unfold written_before_select_dtype in Hk.
  rewrite F6, F4, F3, F2, F1; [reflexivity|..];
    intros Hin; apply Hk;
    repeat (apply elem_of_cons in Hin as [->|Hin]; [key_in|]);
    apply elem_of_nil in Hin; contradiction.
Qed.

(** When [select_dtype] settles on half precision for full-parameter
    training (it returns the [fp16] flag set), it does what the
    documentation says: the precision handed back is [torch.float32],
    one warning is logged and nothing is raised.  It leaves the [dtype]
    attribute at ['fp16'], though, and every other attribute as it
    was. *)
Lemma select_dtype_full_fp16 (env : Env) (self self' : Obj) (rt rt' : Runtime)
    (torch_dtype : Dtype) (bf16 : bool) :
  isinstance_SftArguments self = true ->
  obj_dict self !! "sft_type" = Some (VStr "full") ->
  select_dtype env self rt = Ok ((torch_dtype, true, bf16), self', rt') ->
  torch_dtype = float32 /\ bf16 = false
  /\ rt' = logger WARNING [Lit "Setting torch_dtype: torch.float32"] rt
  /\ obj_dict self' !! "dtype" = Some (VStr "fp16")
  /\ same_except ["dtype"] self self'.
Proof.
  unfold select_dtype. intros Hcls Hfull Hrun.
  repeat (run_inv;
          repeat match goal with
            | H : context [if ?c then _ else _] |- _ => destruct c eqn:?
            end).
  all: repeat match goal with
         | H : dict_getitem dtype_mapping_reversed _ = Ok _ |- _ =>
             apply dict_getitem_dtype in H; subst
         end.
  all: try (unfold isinstance_SftArguments in *; cbn [setattr obj_class] in *; congruence).
  all: try match goal with
         | H : getattr _ "sft_type" = Ok ?v, F : py_eq_str ?v "full" = false |- _ =>
             exfalso; apply getattr_Ok in H;
             rewrite ?setattr_lookup_ne in H by done;
             rewrite Hfull in H; injection H as <-; discriminate F
         end.
  all: match goal with
       | H : getattr ?a "dtype" = Ok (VStr (dtype_mapping float16)) |- _ =>
           apply getattr_Ok in H
       end.
  all: repeat split; try assumption; try reflexivity.
  all: same_except_solve.
Qed.

(** The assertions of the [full] branch, by the bit width found. *)
Lemma sft_type_defaults_full_fp16_assert (self : Obj) (q : PyVal) :
  obj_dict self !! "sft_type" = Some (VStr "full") ->
  obj_dict self !! "dtype" = Some (VStr "fp16") ->
  obj_dict self !! "quantization_bit" = Some q ->
  sft_type_defaults self
  = Err (AssertionError
           (if py_eq_int q 0 then [Lit "please use bf16 or fp32"]
            else [Lit "not supported"])).
Proof.
  intros Hsft Hd Hq. unfold sft_type_defaults, getattr. lookups.
  destruct (py_eq_int q 0); reflexivity.
Qed.

(** Full-parameter training with [dtype == 'fp16'] does not get past the
    dispatch on [sft_type]. *)
Lemma sft_type_defaults_full_fp16 (self : Obj) :
  obj_dict self !! "sft_type" = Some (VStr "full") ->
  obj_dict self !! "dtype" = Some (VStr "fp16") ->
  is_ok (sft_type_defaults self) = false.
Proof.
  intros Hsft Hd. unfold sft_type_defaults, getattr. lookups.
  destruct (obj_dict self !! "quantization_bit") as [q|]; simpl; [|reflexivity].
  destruct (py_eq_int q 0); reflexivity.
Qed.

(** The extent of the defect.  Take any [SftArguments] configuration
    with [sft_type == 'full'], on any hardware and registry, whichever
    way it names its model.  If the statements before [select_dtype]
    return, and [select_dtype] then settles on half precision (the
    [fp16] flag comes back set: [dtype] was ['fp16'], or ['AUTO'] without
    bfloat16 hardware, or ['AUTO'] for a pre-quantized model registered
    with [torch.float16]), then [select_dtype] hands back
    [torch.float32] and logs its warning without raising, and yet
    [__post_init__] does not return: with no process group to set up it
    stops at the assertions of the [full] branch, which still read
    ['fp16'] in [dtype]. *)
Lemma full_fp16_upgraded_then_refused
    (env : Env) (args self self' : Obj) (rt rt1 rt' : Runtime)
    (torch_dtype : Dtype) (bf16 : bool) :
  isinstance_SftArguments args = true ->
  obj_dict args !! "sft_type" = Some (VStr "full") ->
  SftArguments_before_select_dtype env args rt = Ok (self, rt1) ->
  select_dtype env self rt1 = Ok ((torch_dtype, true, bf16), self', rt') ->
  torch_dtype = float32 /\ bf16 = false
  /\ rt' = logger WARNING [Lit "Setting torch_dtype: torch.float32"] rt1
  /\ is_ok (SftArguments_post_init env args rt) = false
  /\ (forall q,
        is_dist env = false ->
        obj_dict args !! "quantization_bit" = Some q ->
        SftArguments_post_init env args rt
        = Err (AssertionError
                 (if py_eq_int q 0 then [Lit "please use bf16 or fp32"]
                  else [Lit "not supported"]))).
Proof.
  intros Hcls Hfull Hbefore Hdtype.
  pose proof (SftArguments_before_select_dtype_frame _ _ _ _ _ Hbefore) as [Hc Hf].
  assert (isinstance_SftArguments self = true) as Hcls1
    by (unfold isinstance_SftArguments in *; rewrite Hc; exact Hcls).
  assert (obj_dict self !! "sft_type" = Some (VStr "full")) as Hfull1
    by (rewrite Hf by key_in; exact Hfull).
  destruct (select_dtype_full_fp16 _ _ _ _ _ _ _ Hcls1 Hfull1 Hdtype)
    as (-> & -> & -> & Hd & [_ Hf']).
  split; [reflexivity|]. split; [reflexivity|]. split; [reflexivity|].
  rewrite SftArguments_post_init_split, Hbefore, bind_Ok. cbv beta iota.
  unfold SftArguments_from_select_dtype. rewrite Hdtype, bind_Ok. cbv beta iota zeta.
  match goal with
  | |- context [init_distributed env ?s ?r] => set (self7 := s); set (rt7 := r)
  end.
  assert (obj_dict self7 !! "sft_type" = Some (VStr "full")
          /\ obj_dict self7 !! "dtype" = Some (VStr "fp16")
          /\ obj_dict self7 !! "quantization_bit"
             = obj_dict args !! "quantization_bit") as (Hfull7 & Hd7 & Hq7).
  { subst self7. rewrite !setattr_lookup_ne by done.
    rewrite Hf' by key_in. rewrite (Hf' "quantization_bit") by key_in.
    rewrite (Hf "quantization_bit") by key_in. auto. }
  split.
  - destruct (init_distributed env self7 rt7) as [[a8 rt8]|e] eqn:H8; [|reflexivity].
    rewrite bind_Ok. cbv beta iota.
    apply init_distributed_spec in H8 as [_ H8].
    assert (is_ok (sft_type_defaults a8) = false) as Hrefused.
    { apply sft_type_defaults_full_fp16; rewrite H8 by key_in; assumption. }
    destruct (sft_type_defaults a8); [discriminate Hrefused|reflexivity].
  - intros q Hdist Hq. unfold init_distributed. rewrite Hdist, bind_Ok. cbv beta iota.
    rewrite (sft_type_defaults_full_fp16_assert self7 q);
      [reflexivity|assumption|assumption|rewrite Hq7; exact Hq].
Qed.

Example full_fp16_upgraded_then_refused_by_path :
  is_ok (SftArguments_post_init sample_env full_int4_by_path_args sample_runtime) = false.
Proof.
  destruct (SftArguments_before_select_dtype sample_env full_int4_by_path_args
              sample_runtime) as [[self rt1]|e] eqn:Hbefore;
    [|vm_compute in Hbefore; discriminate Hbefore].
  destruct (select_dtype sample_env self rt1) as [[[[[t f] b] self'] rt']|e] eqn:Hd.
  - assert (f = true) as ->.
    { vm_compute in Hbefore. injection Hbefore as <- <-.
      vm_compute in Hd. congruence. }
    apply (full_fp16_upgraded_then_refused sample_env full_int4_by_path_args
             self self' sample_runtime rt1 rt' t b eq_refl eq_refl Hbefore Hd).
  - vm_compute in Hbefore. injection Hbefore as <- <-.
    vm_compute in Hd. discriminate Hd.
Qed.

(** C3.  The claim fails on the code.  For
    [SftArguments(model_type='qwen-7b-chat', dtype='fp16', sft_type='full')],
    and for
    [SftArguments(model_id_or_path='qwen/Qwen-7B-Chat-Int4', sft_type='full')]
    with [dtype] left at ['AUTO'], [select_dtype], called where
    [__post_init__] calls it, returns [torch.float32] with the [fp16]
    flag set and logs the warning, as the claim says; but
    [__post_init__] then raises [AssertionError]
    (['please use bf16 or fp32']), because the [full] branch tests the
    [dtype] attribute, which [select_dtype] left at ['fp16']. *)
Theorem full_fp16_is_refused :
  (select_dtype sample_env full_fp16_args sample_runtime
   = Ok ((float32, true, false), full_fp16_args,
         logger WARNING [Lit "Setting torch_dtype: torch.float32"] sample_runtime)
   /\ SftArguments_post_init sample_env full_fp16_args sample_runtime
      = Err (AssertionError [Lit "please use bf16 or fp32"]))
  /\ (('(self, rt) ← SftArguments_before_select_dtype sample_env
                       full_int4_by_path_args sample_runtime;
       '(res, _, rt) ← select_dtype sample_env self rt;
       mret (res, log rt))
      = Ok ((float32, true, false),
            [(INFO, [Lit "output_dir: ";
                     Fmt (VStr "/work/output/qwen-7b-chat-int4/v0")]);
             (WARNING, [Lit "Setting torch_dtype: torch.float32"])])
      /\ SftArguments_post_init sample_env full_int4_by_path_args sample_runtime
         = Err (AssertionError [Lit "please use bf16 or fp32"])).
Proof. repeat split; vm_compute; reflexivity. Qed.

(** * Further properties of the resolvers *)

(** ** Quantization flags *)

(** X1.  Whatever [select_bnb] returns, the two loading flags are never both
    set; they say whether the bit width is 4 or 8; a set flag means
    bitsandbytes was found; and the compute precision attribute is left
    holding the name of the precision returned, never ['AUTO']. *)
Theorem select_bnb_flags
    (env : Env) (args args' : Obj) (d : Dtype) (load_in_4bit load_in_8bit : bool) :
  select_bnb env args = Ok ((d, load_in_4bit, load_in_8bit), args') ->
  load_in_4bit && load_in_8bit = false
  /\ (exists q, obj_dict args !! "quantization_bit" = Some q
                /\ load_in_4bit = py_eq_int q 4
                /\ load_in_8bit = negb (py_eq_int q 4) && py_eq_int q 8)
  /\ (load_in_4bit || load_in_8bit = true -> require_version env "bitsandbytes" = true)
  /\ obj_dict args' !! "bnb_4bit_comp_dtype" = Some (VStr (dtype_mapping d)).
Proof.
  unfold select_bnb. intros Hrun. run_inv;
    repeat match goal with
      | H : getattr _ _ = Ok _ |- _ => apply getattr_Ok in H
      | H : dict_getitem dtype_mapping_reversed _ = Ok _ |- _ =>
          apply dict_getitem_dtype in H; subst
      end;
    repeat match goal with
      | H : obj_dict (setattr _ _ _) !! _ = _ |- _ =>
          rewrite setattr_lookup_ne in H by done
      end;
    (split; [reflexivity|]);
    (split; [eexists; split; [eassumption|];
             repeat match goal with H : py_eq_int _ _ = _ |- _ => rewrite H end;
             split; reflexivity|]);
    (split; [first [discriminate | intros _; first [assumption | reflexivity]]|]);
    assumption.
Qed.

Lemma select_bnb_flags_witness :
  true && false = false
  /\ (exists q,
        obj_dict (new_instance InferArguments
                    [("quantization_bit", VInt 4); ("dtype", VStr "fp16")])
          !! "quantization_bit" = Some q
        /\ true = py_eq_int q 4
        /\ false = negb (py_eq_int q 4) && py_eq_int q 8)
  /\ (true || false = true -> require_version sample_env "bitsandbytes" = true)
  /\ obj_dict
       (setattr (new_instance InferArguments
                   [("quantization_bit", VInt 4); ("dtype", VStr "fp16")])
          "bnb_4bit_comp_dtype" (VStr "fp16"))
       !! "bnb_4bit_comp_dtype" = Some (VStr (dtype_mapping float16)).
Proof.
  apply (select_bnb_flags sample_env
           (new_instance InferArguments
              [("quantization_bit", VInt 4); ("dtype", VStr "fp16")])).
  vm_compute. reflexivity.
Defined.

(** ** Precision *)

(** X2.  Whatever [select_dtype] returns, the [dtype] attribute is left
    holding the name of one of the three precisions, never ['AUTO']; the
    two flags say which of the half precisions that is and are never
    both set; the precision handed back is the named one, or
    [torch.float32] in place of [torch.float16]; and no attribute other
    than [dtype] is written. *)
Theorem select_dtype_resolved
    (env : Env) (args args' : Obj) (rt rt' : Runtime)
    (torch_dtype : Dtype) (fp16 bf16 : bool) :
  select_dtype env args rt = Ok ((torch_dtype, fp16, bf16), args', rt') ->
  exists d,
    obj_dict args' !! "dtype" = Some (VStr (dtype_mapping d))
    /\ fp16 = is_float16 d /\ bf16 = is_bfloat16 d
    /\ fp16 && bf16 = false
    /\ (torch_dtype = d \/ d = float16 /\ torch_dtype = float32)
    /\ same_except ["dtype"] args args'.
Proof.
  unfold select_dtype. intros Hrun.
  repeat (run_inv;
          repeat match goal with
            | H : context [if ?c then _ else _] |- _ => destruct c eqn:?
            end).
  all: repeat match goal with
         | H : dict_getitem dtype_mapping_reversed _ = Ok _ |- _ =>
             apply dict_getitem_dtype in H; subst
         end.
  all: match goal with
       | H : getattr ?a "dtype" = Ok (VStr (dtype_mapping ?d)) |- _ =>
           exists d; apply getattr_Ok in H
       end.
  all: repeat split; auto.
  all: try (simpl; apply same_except_refl).
  all: same_except_solve.
Qed.

(** X3.  Outside of training the precision handed back is always the one
    [dtype] names: half precision stays [torch.float16]. *)
Theorem select_dtype_inference_keeps_precision
    (env : Env) (args args' : Obj) (rt rt' : Runtime)
    (torch_dtype : Dtype) (fp16 bf16 : bool) :
  isinstance_SftArguments args = false ->
  select_dtype env args rt = Ok ((torch_dtype, fp16, bf16), args', rt') ->
  obj_dict args' !! "dtype" = Some (VStr (dtype_mapping torch_dtype)).
Proof.
  unfold select_dtype. intros Hcls Hrun.
  repeat (run_inv;
          repeat match goal with
            | H : context [if ?c then _ else _] |- _ => destruct c eqn:?
            end).
  all: try (unfold isinstance_SftArguments in *; cbn [setattr obj_class] in *; congruence).
  all: repeat match goal with
         | H : dict_getitem dtype_mapping_reversed _ = Ok _ |- _ =>
             apply dict_getitem_dtype in H; subst
         end.
  all: match goal with
       | H : getattr ?a "dtype" = Ok (VStr (dtype_mapping ?d)) |- _ =>
           apply getattr_Ok in H; exact H
       end.
Qed.

(** X4.  A precision chosen by name is never replaced: with [dtype] other
    than ['AUTO'], [select_dtype] leaves the instance as it was. *)
Theorem select_dtype_explicit_kept
    (env : Env) (args args' : Obj) (rt rt' : Runtime) (v : PyVal)
    (res : Dtype * bool * bool) :
  obj_dict args !! "dtype" = Some v ->
  py_eq_str v "AUTO" = false ->
  select_dtype env args rt = Ok (res, args', rt') ->
  args' = args.
Proof.
  unfold select_dtype. intros Hv Hauto Hrun.
  rewrite (getattr_Some _ _ _ Hv), bind_Ok in Hrun. cbv zeta in Hrun.
  rewrite Hauto in Hrun. cbn [andb] in Hrun.
  unfold py_and in Hrun.
  rewrite (getattr_Some _ _ _ Hv), !bind_Ok in Hrun.
  cbn [mret Result_ret] in Hrun. rewrite ?bind_Ok, Hauto in Hrun.
  cbn [mret Result_ret] in Hrun. rewrite ?bind_Ok in Hrun.
  rewrite (getattr_Some _ _ _ Hv), !bind_Ok, Hauto in Hrun.
  rewrite (getattr_Some _ _ _ Hv), !bind_Ok in Hrun.
  run_inv; reflexivity.
Qed.

(** X5.  Asking for bfloat16 on hardware without it is not refused and not
    downgraded: the call returns [torch.bfloat16] with the [bf16] flag,
    the instance untouched, and one warning in the log. *)
Theorem select_dtype_bf16_unsupported
    (env : Env) (args : Obj) (rt : Runtime) :
  obj_dict args !! "dtype" = Some (VStr "bf16") ->
  is_bf16_supported env = false ->
  select_dtype env args rt
  = Ok ((bfloat16, false, true), args,
        logger WARNING [Lit "support_bf16: "; Fmt (VBool false)] rt).
Proof.
  intros Hv Hhw. unfold select_dtype, py_and.
  rewrite (getattr_Some _ _ _ Hv), Hhw. cbn.
  rewrite (getattr_Some _ _ _ Hv). cbn.
  rewrite (getattr_Some _ _ _ Hv). cbn.
  rewrite (getattr_Some _ _ _ Hv). cbn. reflexivity.
Qed.

(** ** Resolving the model *)

Lemma update_revision_lookup_eq (k : string) (rev : PyVal) (mm : list (string * ModelInfo))
    (info : ModelInfo) :
  (list_to_map mm : gmap string ModelInfo) !! k = Some info ->
  (list_to_map (update_revision k rev mm) : gmap string ModelInfo) !! k
  = Some (set_revision info rev).
Proof.
  induction mm as [|[k0 i0] mm IH]; [simpl; rewrite lookup_empty; discriminate|].
  unfold update_revision in *. cbn [fmap list_fmap list_to_map foldr fst snd].
  destruct (decide (k0 = k)) as [->|Hne].
  - rewrite lookup_insert_eq. intros [= ->].
    rewrite String.eqb_refl. cbn [fst snd uncurry]. rewrite lookup_insert_eq. reflexivity.
  - rewrite lookup_insert_ne by assumption. intros H.
    destruct (String.eqb_spec k0 k) as [?|_]; [contradiction|].
    cbn [fst snd uncurry]. rewrite lookup_insert_ne by assumption. apply IH, H.
Qed.

Lemma requires_checked (env : Env) (requires : list string) (u : unit) :
  for_each requires
    (fun require (_ : unit) =>
       if require_version env require then mret tt else Err (PackageError require)) tt
  = Ok u ->
  Forall (fun require => require_version env require = true) requires.
Proof.
  induction requires as [|r rs IH]; intros Hrun; [constructor|].
  cbn [for_each] in Hrun. destruct (require_version env r) eqn:Hr; [|discriminate].
  constructor; [exact Hr|]. apply IH. exact Hrun.
Qed.

(** The resolved model, as [set_model_type] leaves it on the instance
    and in the registry. *)
Lemma set_model_type_post (env : Env) (args args' : Obj) (rt rt' : Runtime) :
  set_model_type env args rt = Ok (args', rt') ->
  exists k info,
    obj_dict args' !! "model_type" = Some (VStr k)
    /\ (list_to_map (MODEL_MAPPING rt') : gmap string ModelInfo) !! k = Some info
    /\ obj_dict args' !! "model_id_or_path" = Some (VStr (mi_model_id_or_path info))
    /\ obj_dict args' !! "model_revision" = Some (mi_revision info)
    /\ Forall (fun require => require_version env require = true) (mi_requires info).
Proof.
  unfold set_model_type. intros Hrun. run_inv.
  all: match goal with
       | H : for_each _ _ tt = Ok _ |- _ => apply requires_checked in H
       end.
  all: match goal with
       | H : (if ?c then _ else _) = (_, _) |- _ =>
           destruct c eqn:?; injection H as <- <-
       end.
  all: repeat match goal with
         | H : getattr _ _ = Ok _ |- _ => apply getattr_Ok in H
         end.
  all: match goal with
       | H : match ?v with _ => _ end = Some _ |- _ =>
           destruct v as [| | | |s0| | |]; try discriminate H
       end.
  all: repeat match goal with
         | H : obj_dict (setattr _ _ _) !! _ = _ |- _ =>
             first [ rewrite setattr_lookup_ne in H by done
                   | rewrite setattr_lookup_eq in H; injection H as -> ]
         end.
  - exists s0, m. lookups. auto.
  - exists s0, (set_revision m a4). lookups.
    split; [reflexivity|]. split; [apply update_revision_lookup_eq; assumption|].
    repeat split; try assumption.
  - exists s0, m. lookups. auto.
  - exists s0, (set_revision m a3). lookups.
    split; [reflexivity|]. split; [apply update_revision_lookup_eq; assumption|].
    repeat split; try assumption.
Qed.



(** X7.  [set_model_type] cannot be run twice on one instance: what the first
    run leaves behind names the model both by type and by path, which the
    second run refuses. *)
Theorem set_model_type_not_repeatable
    (env : Env) (args args' : Obj) (rt rt' : Runtime) :
  set_model_type env args rt = Ok (args', rt') ->
  set_model_type env args' rt' = Err (AssertionError []).
Proof.
  intros Hrun. apply set_model_type_post in Hrun.
  destruct Hrun as (k & info & Hk & _ & Hp & _).
  unfold set_model_type, py_or.
  rewrite (getattr_Some _ _ _ Hk), (getattr_Some _ _ _ Hp). reflexivity.
Qed.

Lemma set_model_type_not_repeatable_witness :
  match set_model_type sample_env
          (new_instance InferArguments [("model_type", VStr "qwen-7b-chat")])
          sample_runtime with
  | Ok (args', rt') => set_model_type sample_env args' rt' = Err (AssertionError [])
  | Err _ => False
  end.
Proof.
  destruct (set_model_type sample_env _ sample_runtime) as [[args' rt']|e] eqn:Hrun.
  - exact (set_model_type_not_repeatable _ _ _ _ _ Hrun).
  - vm_compute in Hrun. discriminate Hrun.
Defined.

(** X8.  With neither a model type nor a path, [set_model_type] raises the
    [ValueError] that asks for one of them. *)
Theorem set_model_type_needs_a_model (env : Env) (args : Obj) (rt : Runtime) :
  obj_dict args !! "model_type" = Some VNone ->
  obj_dict args !! "model_id_or_path" = Some VNone ->
  set_model_type env args rt
  = Err (ValueError [Lit "please setting `--model_type xxx` or `--model_id_or_path xxx`"]).
Proof.
  intros Ht Hp. unfold set_model_type, py_or.
  rewrite (getattr_Some _ _ _ Ht), (getattr_Some _ _ _ Hp). cbn.
  rewrite (getattr_Some _ _ _ Ht). reflexivity.
Qed.

Lemma set_model_type_needs_a_model_witness :
  set_model_type sample_env (new_instance InferArguments []) sample_runtime
  = Err (ValueError [Lit "please setting `--model_type xxx` or `--model_id_or_path xxx`"]).
Proof. apply set_model_type_needs_a_model; reflexivity. Defined.



Lemma select_dtype_resolved_witness :
  match select_dtype sample_env
          (new_instance InferArguments [("model_type", VStr "qwen-7b-chat-int4")])
          sample_runtime with
  | Ok ((torch_dtype, fp16, bf16), args', rt') =>
      exists d,
        obj_dict args' !! "dtype" = Some (VStr (dtype_mapping d))
        /\ fp16 = is_float16 d /\ bf16 = is_bfloat16 d
        /\ fp16 && bf16 = false
        /\ (torch_dtype = d \/ d = float16 /\ torch_dtype = float32)
        /\ same_except ["dtype"]
             (new_instance InferArguments [("model_type", VStr "qwen-7b-chat-int4")])
             args'
  | Err _ => False
  end.
Proof.
  destruct (select_dtype sample_env _ sample_runtime)
    as [[[[[torch_dtype fp16] bf16] args'] rt']|e] eqn:Hrun.
  - exact (select_dtype_resolved _ _ _ _ _ _ _ _ Hrun).
  - vm_compute in Hrun. discriminate Hrun.
Defined.

Lemma select_dtype_inference_keeps_precision_witness :
  obj_dict (new_instance InferArguments [("dtype", VStr "fp16")]) !! "dtype"
  = Some (VStr (dtype_mapping float16)).
Proof.
  apply (select_dtype_inference_keeps_precision sample_env
           (new_instance InferArguments [("dtype", VStr "fp16")]) _
           sample_runtime sample_runtime float16 true false);
    vm_compute; reflexivity.
Defined.

Lemma select_dtype_explicit_kept_witness :
  match select_dtype legacy_env
          (new_instance SftArguments
             [("dtype", VStr "bf16"); ("model_type", VStr "qwen-7b-chat-int4")])
          sample_runtime with
  | Ok (res, args', rt') =>
      args' = new_instance SftArguments
                [("dtype", VStr "bf16"); ("model_type", VStr "qwen-7b-chat-int4")]
  | Err _ => False
  end.
Proof.
  destruct (select_dtype legacy_env _ sample_runtime) as [[[res args'] rt']|e] eqn:Hrun.
  - apply (select_dtype_explicit_kept legacy_env _ _ sample_runtime rt' (VStr "bf16") res);
      [reflexivity | reflexivity | exact Hrun].
  - vm_compute in Hrun. discriminate Hrun.
Defined.

Lemma select_dtype_bf16_unsupported_witness :
  select_dtype legacy_env (new_instance SftArguments [("dtype", VStr "bf16")])
    sample_runtime
  = Ok ((bfloat16, false, true), new_instance SftArguments [("dtype", VStr "bf16")],
        logger WARNING [Lit "support_bf16: "; Fmt (VBool false)] sample_runtime).
Proof. apply select_dtype_bf16_unsupported; reflexivity. Defined.

(** ** Paths *)

Lemma map_result_Forall {A B} (f : A -> Result B) (P : B -> Prop) (l : list A) :
  Forall (fun x => forall y, f x = Ok y -> P y) l ->
  forall l', map_result f l = Ok l' -> Forall P l'.
Proof.
  induction 1 as [|x l Hx Hall IH]; intros l' Hrun.
  - simpl in Hrun. injection Hrun as <-. constructor.
  - simpl in Hrun. destruct (f x) as [y|e] eqn:Hfx; [|discriminate].
    rewrite bind_Ok in Hrun.
    destruct (map_result f l) as [ys|e] eqn:Hl; [|discriminate].
    rewrite bind_Ok in Hrun. injection Hrun as <-.
    constructor; [apply Hx; reflexivity|apply IH; reflexivity].
Qed.

Lemma _check_path_resolved (env : Env) (k : string) (set : list string) (v : PyVal) :
  forall v', _check_path env k v set = Ok v' ->
             path_resolved env (bool_decide (k ∈ set)) v'.
Proof.
  induction v as [|b|n|r|s|l IH|l|d] using PyVal_list_ind; intros v' Hrun;
    try (injection Hrun as <-; constructor).
  - cbn [_check_path] in Hrun. cbv zeta in Hrun.
    destruct (bool_decide (k ∈ set)) eqn:Hin; cbn [andb] in Hrun.
    + destruct (path_exists env _) eqn:Hex; [|discriminate].
      injection Hrun as <-. constructor. intros _. exact Hex.
    + injection Hrun as <-. constructor. discriminate.
  - cbn [_check_path] in Hrun.
    destruct (map_result _ l) as [res|e] eqn:Hres; [|discriminate].
    rewrite bind_Ok in Hrun. injection Hrun as <-. constructor.
    eapply map_result_Forall; [|exact Hres]. exact IH.
Qed.

Lemma handle_path_step_resolved (env : Env) (set : list string) (k : string)
    (args args' : Obj) (v : PyVal) :
  handle_path_step env set k args = Ok args' ->
  obj_dict args' !! k = Some v ->
  path_resolved env (bool_decide (k ∈ set)) v.
Proof.
  unfold handle_path_step, getattr_default.
  destruct (obj_dict args !! k) as [v0|] eqn:Hv0; simpl.
  - destruct (is_none v0) eqn:Hnone.
    + intros [= <-]. rewrite Hv0. intros [= <-].
      destruct v0; try discriminate. constructor.
    + destruct (_check_path env k v0 set) as [v'|e] eqn:Hcheck; [|discriminate].
      rewrite bind_Ok. intros [= <-]. simpl. rewrite lookup_insert_eq. intros [= <-].
      eapply _check_path_resolved, Hcheck.
  - intros [= <-]. rewrite Hv0. discriminate.
Qed.

Lemma handle_path_loop_resolved (env : Env) (set keys : list string) :
  NoDup keys ->
  forall args args',
    for_each keys (handle_path_step env set) args = Ok args' ->
    forall k v, k ∈ keys -> obj_dict args' !! k = Some v ->
                path_resolved env (bool_decide (k ∈ set)) v.
Proof.
  induction 1 as [|j keys Hj Hnd IH]; intros args args' Hrun k v Hk Hv.
  - apply elem_of_nil in Hk. contradiction.
  - cbn [for_each] in Hrun.
    destruct (handle_path_step env set j args) as [args1|e] eqn:Hstep; [|discriminate].
    rewrite bind_Ok in Hrun.
    apply elem_of_cons in Hk as [->|Hk].
    + apply handle_path_loop_frame in Hrun as (_ & Hother).
      rewrite Hother in Hv by exact Hj.
      eapply handle_path_step_resolved; eassumption.
    + eapply IH; eassumption.
Qed.

(** What [handle_path] leaves under the path-like keys. *)
Lemma handle_path_resolved (env : Env) (args args' : Obj) (k : string) (v : PyVal) :
  handle_path env args = Ok args' ->
  obj_dict args' !! k = Some v ->
  (k ∈ check_exist_path -> path_resolved env true v)
  /\ (k = "model_id_or_path" -> model_id_or_path_is_local args = Ok true ->
      path_resolved env true v)
  /\ (k ∈ other_path -> path_resolved env false v).
Proof.
  unfold handle_path. intros Hrun Hv.
  destruct (model_id_or_path_is_local args) as [c|e] eqn:Hc; [|discriminate].
  rewrite bind_Ok in Hrun. cbv zeta in Hrun.
  assert (NoDup ((if c then check_exist_path ++ ["model_id_or_path"]
                  else check_exist_path) ++ other_path)) as Hnd.
  { destruct c; refine (bool_decide_unpack _ _); vm_compute; exact I. }
  pose proof (handle_path_loop_resolved env _ _ Hnd args args' Hrun k v) as Hres.
  split; [|split].
  - intros Hk.
    replace true with
      (bool_decide (k ∈ (if c then check_exist_path ++ ["model_id_or_path"]
                         else check_exist_path))).
    + apply Hres; [|exact Hv]. apply elem_of_app. left.
      destruct c; [apply elem_of_app; left|]; exact Hk.
    + apply bool_decide_eq_true. destruct c; [apply elem_of_app; left|]; exact Hk.
  - intros -> Hc'. injection Hc' as ->.
    replace true with
      (bool_decide ("model_id_or_path" ∈ check_exist_path ++ ["model_id_or_path"])) by reflexivity.
    apply Hres; [|exact Hv]. refine (bool_decide_unpack _ _). vm_compute. exact I.
  - intros Hk.
    replace false with
      (bool_decide (k ∈ (if c then check_exist_path ++ ["model_id_or_path"]
                         else check_exist_path))).
    + apply Hres; [|exact Hv]. apply elem_of_app. right. exact Hk.
    + apply bool_decide_eq_false. intros Hin.
      unfold other_path in Hk.
      repeat (apply elem_of_cons in Hk as [->|Hk];
              [destruct c; revert Hin; refine (bool_decide_unpack _ _); vm_compute; exact I|]).
      apply elem_of_nil in Hk. contradiction.
Qed.

(** X10.  After [handle_path], every path kept under a key that requires
    existence names something that exists, also inside a list of paths;
    the same holds for [model_id_or_path] when it was given as a local
    path (one that starts with [~] or [/]). *)
Theorem handle_path_paths_exist
    (env : Env) (args args' : Obj) (k : string) (v : PyVal) :
  handle_path env args = Ok args' ->
  k ∈ check_exist_path
  \/ k = "model_id_or_path" /\ model_id_or_path_is_local args = Ok true ->
  obj_dict args' !! k = Some v ->
  path_resolved env true v.
Proof.
  intros Hrun Hk Hv.
  destruct (handle_path_resolved env args args' k v Hrun Hv) as (H1 & H2 & _).
  destruct Hk as [Hk|[Hk Hc]]; auto.
Qed.

Lemma handle_path_paths_exist_witness :
  match handle_path sample_env
          (new_instance SftArguments
             [("custom_train_dataset_path", VList [VStr "~/data/a.jsonl"; VStr "b.csv"])]) with
  | Ok args' =>
      path_resolved sample_env true (VList [VStr "/home/user/data/a.jsonl"; VStr "/work/b.csv"])
  | Err _ => False
  end.
Proof.
  destruct (handle_path sample_env _) as [args'|e] eqn:Hrun.
  - apply (handle_path_paths_exist sample_env _ args' "custom_train_dataset_path" _ Hrun).
    + left. refine (bool_decide_unpack _ _). vm_compute. exact I.
    + vm_compute in Hrun. injection Hrun as <-. vm_compute. reflexivity.
  - vm_compute in Hrun. discriminate Hrun.
Defined.

Lemma _check_path_error (env : Env) (k : string) (set : list string) (v : PyVal) :
  forall e, _check_path env k v set = Err e -> exists msg, e = FileNotFoundError msg.
Proof.
  induction v as [|b|n|r|s|l IH|l|d] using PyVal_list_ind; intros e Hrun;
    try discriminate Hrun.
  - cbn [_check_path] in Hrun. cbv zeta in Hrun.
    destruct (_ && _); [|discriminate]. injection Hrun as <-. eauto.
  - cbn [_check_path] in Hrun.
    destruct (map_result _ l) as [res|e'] eqn:Hres; [discriminate|].
    injection Hrun as <-. clear -IH Hres. revert e' Hres.
    induction IH as [|x l Hx Hall IHl]; intros e' Hres; [discriminate|].
    simpl in Hres. destruct (_check_path env k x set) as [y|e1] eqn:Hfx.
    + rewrite bind_Ok in Hres.
      destruct (map_result _ l) as [ys|e2] eqn:Hl; [discriminate|].
      injection Hres as <-. eapply IHl. reflexivity.
    + injection Hres as <-. eapply Hx. reflexivity.
Qed.

Lemma handle_path_loop_missing (env : Env) (set keys : list string) (k p : string) :
  k ∈ keys -> k ∈ set ->
  path_exists env (abspath env (expanduser env p)) = false ->
  forall args,
    obj_dict args !! k = Some (VStr p) ->
    exists msg, for_each keys (handle_path_step env set) args = Err (FileNotFoundError msg).
Proof.
  intros Hk Hset Hmissing. induction keys as [|j keys IH]; intros args Hv.
  - apply elem_of_nil in Hk. contradiction.
  - cbn [for_each]. destruct (decide (j = k)) as [->|Hne].
    + unfold handle_path_step, getattr_default. rewrite Hv. simpl.
      rewrite (bool_decide_eq_true_2 _ Hset), Hmissing. simpl. eauto.
    + apply elem_of_cons in Hk as [->|Hk]; [congruence|].
      destruct (handle_path_step env set j args) as [args1|e] eqn:Hstep.
      * rewrite bind_Ok. apply (IH Hk).
        apply handle_path_step_frame in Hstep as (_ & Hother).
        rewrite Hother by congruence. exact Hv.
      * revert Hstep. unfold handle_path_step. destruct (is_none _); [discriminate|].
        destruct (_check_path env j _ set) as [v'|e'] eqn:Hcheck; [discriminate|].
        intros [= <-]. apply _check_path_error in Hcheck as (msg & ->). eauto.
Qed.

(** X11.  A path under one of the keys that require existence, naming nothing
    that exists once expanded and made absolute, makes [handle_path]
    raise [FileNotFoundError]. *)
Theorem handle_path_missing_path
    (env : Env) (args : Obj) (k p : string) (c : bool) :
  model_id_or_path_is_local args = Ok c ->
  k ∈ check_exist_path ->
  obj_dict args !! k = Some (VStr p) ->
  path_exists env (abspath env (expanduser env p)) = false ->
  exists msg, handle_path env args = Err (FileNotFoundError msg).
Proof.
  intros Hc Hk Hv Hmissing. unfold handle_path. rewrite Hc, bind_Ok. cbv zeta.
  eapply handle_path_loop_missing; try eassumption.
  - apply elem_of_app. left. destruct c; [apply elem_of_app; left|]; exact Hk.
  - destruct c; [apply elem_of_app; left|]; exact Hk.
Qed.

Lemma handle_path_missing_path_witness :
  exists msg,
    handle_path sample_env
      (new_instance InferArguments [("ckpt_dir", VStr "~/runs/missing/checkpoint-100")])
    = Err (FileNotFoundError msg).
Proof.
  apply (handle_path_missing_path sample_env _ "ckpt_dir" "~/runs/missing/checkpoint-100" false).
  - reflexivity.
  - refine (bool_decide_unpack _ _). vm_compute. exact I.
  - reflexivity.
  - reflexivity.
Defined.

(** X12.  On a POSIX file system every text [handle_path] leaves under one of
    the six checked keys, [output_dir] or [logging_dir] is an absolute
    path. *)
Theorem handle_path_absolute
    (env : Env) (args args' : Obj) (k s : string) :
  posix_paths env ->
  handle_path env args = Ok args' ->
  k ∈ check_exist_path ++ other_path ->
  obj_dict args' !! k = Some (VStr s) ->
  String.prefix "/" s = true.
Proof.
  intros Hposix Hrun Hk Hv.
  destruct (handle_path_resolved env args args' k _ Hrun Hv) as (H1 & _ & H3).
  apply elem_of_app in Hk as [Hk|Hk].
  - specialize (H1 Hk). inversion H1; subst. apply (abspath_absolute env Hposix).
  - specialize (H3 Hk). inversion H3; subst. apply (abspath_absolute env Hposix).
Qed.

Lemma handle_path_absolute_witness :
  String.prefix "/" "/work/output" = true.
Proof.
  apply (handle_path_absolute sample_env (new_instance SftArguments [])
           (setattr (new_instance SftArguments []) "output_dir" (VStr "/work/output"))
           "output_dir").
  - exact sample_env_posix.
  - vm_compute. reflexivity.
  - refine (bool_decide_unpack _ _). vm_compute. exact I.
  - reflexivity.
Defined.

(** X13.  [output_dir] is made absolute but need not exist: with no other
    path set, [handle_path] returns whatever the file system holds. *)
Theorem handle_path_output_dir_need_not_exist
    (env : Env) (args : Obj) (p : string) :
  Forall (fun k => getattr_default args k VNone = VNone)
    (check_exist_path ++ ["logging_dir"]) ->
  obj_dict args !! "model_id_or_path" = Some VNone ->
  obj_dict args !! "output_dir" = Some (VStr p) ->
  handle_path env args
  = Ok (setattr args "output_dir" (VStr (abspath env (expanduser env p)))).
Proof.
  intros Hnone Hmodel Hout. unfold check_exist_path in Hnone. cbn [app] in Hnone.
  repeat match goal with
    | H : Forall _ (_ :: _) |- _ => apply Forall_cons in H as [? H]
    end.
  unfold handle_path, model_id_or_path_is_local, py_and, getattr.
  rewrite Hmodel. cbn. unfold handle_path_step.
  repeat (cbn;
          match goal with
          | H : getattr_default args _ VNone = VNone |- _ => rewrite H; clear H
          end).
  cbn.
  assert (getattr_default args "output_dir" VNone = VStr p) as Hout'
    by (unfold getattr_default; rewrite Hout; reflexivity).
  rewrite Hout'. cbn.
  assert (bool_decide ("output_dir" ∈ check_exist_path) = false) as Hb
    by (vm_compute; reflexivity).
  unfold check_exist_path in Hb. rewrite Hb. cbn.
  unfold getattr_default in *. cbn. rewrite lookup_insert_ne by done.
  match goal with
  | H : default VNone _ = VNone |- _ => rewrite H
  end.
  reflexivity.
Qed.

Lemma handle_path_output_dir_need_not_exist_witness :
  handle_path sample_env (new_instance SftArguments [("output_dir", VStr "missing/out")])
  = Ok (setattr (new_instance SftArguments [("output_dir", VStr "missing/out")])
          "output_dir"
          (VStr (abspath sample_env (expanduser sample_env "missing/out")))).
Proof.
  apply handle_path_output_dir_need_not_exist.
  - unfold check_exist_path. cbn [app].
    repeat (apply List.Forall_cons; [vm_compute; reflexivity|]). apply List.Forall_nil.
  - reflexivity.
  - reflexivity.
Defined.

(** ** Compatibility rewrites *)

(** X14.  [handle_compatibility] writes [dataset] and [template_type] at most,
    besides [lora_target_modules] on a training configuration and
    [val_dataset_sample] on an inference one; every other attribute, and
    the class, come out as they went in. *)
Theorem handle_compatibility_writes
    (env : Env) (args args' : Obj) :
  handle_compatibility env args = Ok args' ->
  same_except (compat_writes (obj_class args)) args args'.
Proof.
  unfold handle_compatibility, lora_target_is_auto, show_dataset_sample_overrides,
    isinstance_SftArguments, isinstance_InferArguments, compat_writes.
  intros Hrun.
  destruct (obj_class args) eqn:Hcls; run_inv.
  all: repeat match goal with
         | H : context [obj_class (if ?c then _ else _)] |- _ =>
             destruct c; cbn [setattr obj_class] in H
         | H : context [obj_class (setattr _ _ _)] |- _ =>
             cbn [setattr obj_class] in H
         end.
  all: try (rewrite Hcls in *; run_inv).
  all: try match goal with
           | H : py_and (mret false) _ = Ok true |- _ =>
               unfold py_and in H; cbn in H; discriminate H
           end.
  all: same_except_solve.
Qed.

Lemma handle_compatibility_writes_witness :
  match handle_compatibility sample_env sample_infer_args with
  | Ok args' => same_except (compat_writes (obj_class sample_infer_args))
                  sample_infer_args args'
  | Err _ => False
  end.
Proof.
  destruct (handle_compatibility sample_env sample_infer_args) as [args'|e] eqn:Hrun.
  - exact (handle_compatibility_writes _ _ _ Hrun).
  - vm_compute in Hrun. discriminate Hrun.
Defined.

(** X15.  [handle_path] writes the nine path-like attributes at most. *)
Theorem handle_path_writes (env : Env) (args args' : Obj) :
  handle_path env args = Ok args' ->
  same_except (check_exist_path ++ ["model_id_or_path"] ++ other_path) args args'.
Proof. apply handle_path_frame. Qed.

Lemma handle_path_writes_witness :
  match handle_path sample_env sample_infer_args with
  | Ok args' =>
      same_except (check_exist_path ++ ["model_id_or_path"] ++ other_path)
        sample_infer_args args'
  | Err _ => False
  end.
Proof.
  destruct (handle_path sample_env sample_infer_args) as [args'|e] eqn:Hrun.
  - exact (handle_path_writes _ _ _ Hrun).
  - vm_compute in Hrun. discriminate Hrun.
Defined.

(** ** Snapshots *)

Lemma import_key_frame (sft_args : Json) (key : string) (args args' : Obj) :
  import_key sft_args key args = Ok args' ->
  obj_class args' = obj_class args
  /\ forall j, j <> key -> obj_dict args' !! j = obj_dict args !! j.
Proof.
  unfold import_key. intros Hrun. run_inv; split; try reflexivity.
  intros j Hj. simpl. apply lookup_insert_ne. congruence.
Qed.

Lemma import_keys_frame (sft_args : Json) (keys : list string) :
  forall args args',
    for_each keys (import_key sft_args) args = Ok args' ->
    obj_class args' = obj_class args
    /\ forall j, j ∉ keys -> obj_dict args' !! j = obj_dict args !! j.
Proof.
  induction keys as [|k keys IH]; intros args args' Hrun.
  - injection Hrun as <-. auto.
  - cbn [for_each] in Hrun.
    destruct (import_key sft_args k args) as [args1|e] eqn:Hstep; [|discriminate].
    rewrite bind_Ok in Hrun.
    destruct (import_key_frame _ _ _ _ Hstep) as (Hcls & Hother).
    destruct (IH args1 args' Hrun) as (Hcls' & Hother').
    split; [congruence|].
    intros j Hj. apply not_elem_of_cons in Hj as [Hjk Hj].
    rewrite Hother', Hother by assumption. reflexivity.
Qed.

(** X16.  [load_from_ckpt_dir] writes allow-listed attributes only, and in a
    human evaluation not the dataset-related ones; the class, every
    other attribute (the sampling and generation settings, [ckpt_dir],
    [seed], ...) and both registries are left as they were. *)
Theorem load_from_ckpt_dir_writes
    (env : Env) (args args' : Obj) (rt rt' : Runtime) (eval_human : PyVal) :
  obj_dict args !! "eval_human" = Some eval_human ->
  load_from_ckpt_dir env args rt = Ok (args', rt') ->
  same_except (imported_keys eval_human) args args'
  /\ MODEL_MAPPING rt' = MODEL_MAPPING rt
  /\ DATASET_MAPPING rt' = DATASET_MAPPING rt.
Proof.
  intros Heval. unfold load_from_ckpt_dir. intros Hrun. run_inv.
  - split; [apply same_except_refl|]. auto.
  - match goal with
    | H : getattr args "eval_human" = Ok _ |- _ =>
        apply getattr_Ok in H; rewrite Heval in H; injection H as <-
    end.
    match goal with
    | H : for_each _ _ _ = Ok _ |- _ => apply import_keys_frame in H as (Hcls & Hother)
    end.
    split; [split; assumption|]. auto.
Qed.

Lemma load_from_ckpt_dir_writes_witness :
  match load_from_ckpt_dir sample_env
          (new_instance InferArguments
             [("ckpt_dir", VStr "/runs/v0/checkpoint-100"); ("eval_human", VBool true)])
          sample_runtime with
  | Ok (args', rt') =>
      same_except (imported_keys (VBool true))
        (new_instance InferArguments
           [("ckpt_dir", VStr "/runs/v0/checkpoint-100"); ("eval_human", VBool true)])
        args'
      /\ MODEL_MAPPING rt' = MODEL_MAPPING sample_runtime
      /\ DATASET_MAPPING rt' = DATASET_MAPPING sample_runtime
  | Err _ => False
  end.
Proof.
  destruct (load_from_ckpt_dir sample_env _ sample_runtime) as [[args' rt']|e] eqn:Hrun.
  - apply (load_from_ckpt_dir_writes sample_env _ _ _ _ (VBool true)); [reflexivity|exact Hrun].
  - vm_compute in Hrun. discriminate Hrun.
Defined.

(** X17.  A snapshot file that holds something other than an object (a list,
    a number) makes [load_from_ckpt_dir] raise [AttributeError]: the
    first key is looked up with [get]. *)
Theorem load_from_ckpt_dir_malformed_snapshot
    (env : Env) (args : Obj) (rt : Runtime) (ckpt_dir : string)
    (eval_human v : PyVal) :
  obj_dict args !! "ckpt_dir" = Some (VStr ckpt_dir) ->
  path_exists env (os_path_join ckpt_dir "sft_args.json") = true ->
  json_load env (os_path_join ckpt_dir "sft_args.json") = Ok (JOther v) ->
  obj_dict args !! "eval_human" = Some eval_human ->
  load_from_ckpt_dir env args rt = Err (AttributeError "get").
Proof.
  intros Hdir Hex Hjson Heval. unfold load_from_ckpt_dir, getattr.
  rewrite Hdir. simpl. rewrite Hex. simpl. rewrite Hjson. simpl. rewrite Heval. simpl.
  unfold imported_keys. destruct (negb (py_truthy eval_human)); reflexivity.
Qed.

Lemma load_from_ckpt_dir_malformed_snapshot_witness :
  load_from_ckpt_dir
    {| expanduser := expanduser sample_env;
       abspath := abspath sample_env;
       path_exists := path_exists sample_env;
       json_load := fun _ => Ok (JOther (VList []));
       is_bf16_supported := true;
       is_master := true;
       is_dist := false;
       get_dist_setting := get_dist_setting sample_env;
       broadcast_string := broadcast_string sample_env;
       float_add_int := float_add_int sample_env;
       add_version_to_work_dir := add_version_to_work_dir sample_env;
       require_version := require_version sample_env;
       register_dataset := register_dataset sample_env;
       TemplateType_chatml := "chatml" |}
    (new_instance InferArguments [("ckpt_dir", VStr "/runs/v0/checkpoint-100")])
    sample_runtime
  = Err (AttributeError "get").
Proof.
  apply (load_from_ckpt_dir_malformed_snapshot _ _ _ "/runs/v0/checkpoint-100"
           (VBool false) (VList []));
    reflexivity.
Defined.
